(** * ShopEase Agentic Analyst: hybrid (LLM / rule-based) query router

    A shallow embedding of [src/rag.py], [src/tools.py] and [src/agent.py]
    and the properties of the dual-mode router, the rule-based planner and
    the keyword knowledge base.

    Conventions of the embedding:
    - a Python [str] is a [string] whose characters are the code points
      0..255; [lower] is [str.lower] on that range;
    - a Python [dict] with string keys is a [gmap string _]; [d[k]] raises
      [KeyError] when the key is missing;
    - Python code that prints, raises, or reads and writes module globals
      runs in the monad [M]: a reader of the outside world ([External]),
      a state ([Session]) and an [outcome] that is a value or a raised
      exception;
    - pandas, matplotlib, scikit-learn, LangChain and the LLM are outside
      the program: what they compute is read from [External]. *)

From Stdlib Require Import String Ascii List Bool Arith Lia.
From stdpp Require Import base option gmap strings.
Import ListNotations.
Open Scope string_scope.

(** ** Python strings *)

(** The line feed written [\n] in the source. *)
Definition nl : string := String (ascii_of_nat 10) EmptyString.

(** [str.lower] on one code point below 256: A-Z, and the Latin-1 capitals
    U+00C0..U+00DE except the multiplication sign U+00D7, move up by 32. *)
Definition lower_char (c : ascii) : ascii :=
  let n := nat_of_ascii c in
  if (((65 <=? n) && (n <=? 90))
      || ((192 <=? n) && (n <=? 222) && negb (n =? 215)))%nat
  then ascii_of_nat (n + 32)
  else c.

(** [s.lower()] *)
Fixpoint lower (s : string) : string :=
  match s with
  | EmptyString => EmptyString
  | String c s' => String (lower_char c) (lower s')
  end.

(** [sub in s]: [sub] occurs in [s] as a contiguous substring. *)
Fixpoint str_in (sub s : string) : bool :=
  String.prefix sub s ||
  match s with
  | EmptyString => false
  | String _ s' => str_in sub s'
  end.

(** [s.startswith(p)] *)
Definition startswith (s p : string) : bool := String.prefix p s.

(** [s[:n]] *)
Definition slice_to (n : nat) (s : string) : string := substring 0 n s.

(** [sep.join(parts)] *)
Definition join (sep : string) (parts : list string) : string :=
  String.concat sep parts.

(** Truth value of a [str | None]: [None] and the empty string are false. *)
Definition truthy (v : option string) : bool :=
  match v with
  | None => false
  | Some s => negb (String.eqb s EmptyString)
  end.

(** ** Exceptions and outcomes *)

(** The part of Python's exception hierarchy the program can tell apart:
    [except ImportError] and [except Exception].  [Other name parent] is
    any further class, under its parent. *)
Inductive exn_class : Type :=
  | BaseException
  | KeyboardInterrupt
  | SystemExit
  | GeneratorExit
  | Exception
  | ImportError
  | ModuleNotFoundError
  | KeyError
  | AttributeError
  | OSError
  | ValueError
  | Other (name : string) (parent : exn_class).

(** [issubclass(c, Exception)] *)
Fixpoint is_Exception (c : exn_class) : bool :=
  match c with
  | BaseException | KeyboardInterrupt | SystemExit | GeneratorExit => false
  | Exception | ImportError | ModuleNotFoundError | KeyError
  | AttributeError | OSError | ValueError => true
  | Other _ parent => is_Exception parent
  end.

(** [issubclass(c, ImportError)] *)
Fixpoint is_ImportError (c : exn_class) : bool :=
  match c with
  | ImportError | ModuleNotFoundError => true
  | Other _ parent => is_ImportError parent
  | _ => false
  end.

(** A raised exception: its class and [str(e)]. *)
Record exn : Type := mk_exn { exn_cls : exn_class; exn_str : string }.

Inductive outcome (A : Type) : Type :=
  | Return (a : A)
  | Raise (e : exn).
Arguments Return {A} a.
Arguments Raise {A} e.

Definition outcome_bind {A B : Type} (o : outcome A) (k : A -> outcome B) : outcome B :=
  match o with
  | Return a => k a
  | Raise e => Raise e
  end.

(** One hexadecimal digit, in lower case. *)
Definition hex_digit (n : nat) : ascii :=
  match n with
  | 0 => "0" | 1 => "1" | 2 => "2" | 3 => "3" | 4 => "4" | 5 => "5"
  | 6 => "6" | 7 => "7" | 8 => "8" | 9 => "9" | 10 => "a" | 11 => "b"
  | 12 => "c" | 13 => "d" | 14 => "e" | _ => "f"
  end%char.

Definition backslash : ascii := ascii_of_nat 92.
Definition single_quote : ascii := ascii_of_nat 39.
Definition double_quote : ascii := ascii_of_nat 34.

(** [str.isprintable] on one code point below 256: the ASCII graphic
    characters and the space, and the Latin-1 characters from U+00A1 on
    except the soft hyphen U+00AD. *)
Definition printable (c : ascii) : bool :=
  let n := nat_of_ascii c in
  (((32 <=? n) && (n <=? 126)) || ((161 <=? n) && negb (n =? 173)))%nat.

(** The characters of [repr(s)] between its quotes: the quote in use and
    the backslash are escaped, tab, line feed and carriage return are
    written by their letters, any other character that is not printable
    by two hexadecimal digits. *)
Fixpoint repr_body (quote : ascii) (s : string) : string :=
  match s with
  | EmptyString => EmptyString
  | String c s' =>
      let n := nat_of_ascii c in
      (if Ascii.eqb c quote || Ascii.eqb c backslash then
         String backslash (String c EmptyString)
       else if (n =? 9)%nat then String backslash "t"
       else if (n =? 10)%nat then String backslash "n"
       else if (n =? 13)%nat then String backslash "r"
       else if printable c then String c EmptyString
       else String backslash
              (String "x"
                 (String (hex_digit (n / 16))
                    (String (hex_digit (n mod 16)) EmptyString))))
      ++ repr_body quote s'
  end.

(** [repr(s)] of a [str]: in single quotes, unless the text has a single
    quote and no double quote. *)
Definition repr_str (s : string) : string :=
  let quote :=
    if str_in (String single_quote EmptyString) s
       && negb (str_in (String double_quote EmptyString) s)
    then double_quote else single_quote in
  String quote (repr_body quote s ++ String quote EmptyString).

(** [d[k]] on a dict.  The text of a [KeyError] is the [repr] of the
    key. *)
Definition getitem {V : Type} (d : gmap string V) (k : string) : outcome V :=
  match d !! k with
  | Some v => Return v
  | None => Raise (mk_exn KeyError (repr_str k))
  end.

(** ** rag.py *)

(** The four document texts of [BusinessKnowledgeBase.__init__]. *)
Definition background_text : string :=
  "ShopEase is a mid-size E-commerce Platform in India operating D2C + Marketplace models. Categories: Electronics, Fashion, Home & Kitchen, Beauty.".
Definition problem_text : string :=
  "Leadership is concerned about increasing customer churn and declining repeat purchase rates, particularly from paid channels.".
Definition hypotheses_text : string :=
  "Leadership suspects poor delivery experience, discount dependency, and low post-purchase engagement are contributing factors.".
Definition constraints_text : string :=
  "Marketing budget is capped. Heavy discounting is discouraged. Focus on operational or engagement improvements.".

Module BusinessKnowledgeBase.

Record t : Type := mk { documents : gmap string string }.

Definition __init__ : t :=
  mk (<["background" := background_text]>
     (<["problem" := problem_text]>
     (<["hypotheses" := hypotheses_text]>
     (<["constraints" := constraints_text]> ∅)))).

(** [if cond: relevant_docs.append(self.documents[key])] *)
Definition append_if (cond : bool) (self : t) (key : string)
    (relevant_docs : list string) : outcome (list string) :=
  if cond
  then outcome_bind (getitem (documents self) key)
         (fun d => Return (relevant_docs ++ [d])%list)
  else Return relevant_docs.

(** The list [relevant_docs] as it stands at the [return] of
    [retrieve_context]. *)
Definition relevant_docs (self : t) (query : string) : outcome (list string) :=
  let query := lower query in
  let relevant_docs := [] in
  outcome_bind
    (append_if (str_in "churn" query || str_in "problem" query)
       self "problem" relevant_docs) (fun relevant_docs =>
  outcome_bind
    (append_if (str_in "delivery" query || str_in "discount" query
                || str_in "suspect" query)
       self "hypotheses" relevant_docs) (fun relevant_docs =>
  outcome_bind
    (append_if (str_in "budget" query || str_in "cost" query)
       self "constraints" relevant_docs) (fun relevant_docs =>
  match relevant_docs with
  | [] => append_if true self "background" relevant_docs
  | _ :: _ => Return relevant_docs
  end))).

Definition retrieve_context (self : t) (query : string) : outcome string :=
  outcome_bind (relevant_docs self query)
    (fun relevant_docs => Return (join nl relevant_docs)).

End BusinessKnowledgeBase.

(** Global singleton *)
Definition _RAG_INSTANCE : BusinessKnowledgeBase.t :=
  BusinessKnowledgeBase.__init__.

Module rag.
(** The function wrapped by [@tool]. *)
Definition get_business_context (query : string) : outcome string :=
  BusinessKnowledgeBase.retrieve_context _RAG_INSTANCE query.
End rag.

(** ** The session, the outside world and the monad of the program *)

(** The eight LangChain tools, by the name of the wrapped function. *)
Inductive tool_id : Type :=
  | t_get_business_context
  | t_get_data_summary
  | t_analyze_delivery_impact
  | t_analyze_channel_performance
  | t_analyze_city_performance
  | t_analyze_demographics
  | t_analyze_engagement
  | t_train_predictive_model.

(** [tool.name] *)
Definition tool_name (t : tool_id) : string :=
  match t with
  | t_get_business_context => "get_business_context"
  | t_get_data_summary => "get_data_summary"
  | t_analyze_delivery_impact => "analyze_delivery_impact"
  | t_analyze_channel_performance => "analyze_channel_performance"
  | t_analyze_city_performance => "analyze_city_performance"
  | t_analyze_demographics => "analyze_demographics"
  | t_analyze_engagement => "analyze_engagement"
  | t_train_predictive_model => "train_predictive_model"
  end.

(** What [tool.invoke] is given: a bare string or a dict of arguments. *)
Inductive tool_input : Type :=
  | InputStr (s : string)
  | InputDict (d : gmap string string).

(** What the program does that can be seen from outside, in order. *)
Inductive event : Type :=
  | EvPrint (text : string)
  | EvInvokeTool (t : tool_id) (input : tool_input)
  | EvImport (module : string)
  | EvConstruct (cls : string)
  | EvInvokeExecutor (input : gmap string string).

(** The merged customer table held in [self.df].  Its statistics are
    computed by pandas and scikit-learn, in floating point, outside the
    program: the embedding only carries the table around. *)
Inductive DataFrame : Type :=
  | mk_frame (columns : list string) (rows : list (list string)).

(** The attributes of a [DataAnalystTools] object. *)
Record ToolsObject : Type := mk_tools {
  data_dir : string;
  plot_dir : string;
  df : option DataFrame
}.

(** The attributes of an [AgentExecutor] as [ShopEaseAnalyst.__init__]
    sets them. *)
Record ExecutorObject : Type := mk_executor {
  executor_tools : list tool_id;
  executor_verbose : bool
}.

(** The mutable state: what was printed and called so far, and the module
    global of tools.py. *)
Record Session : Type := mk_session {
  trace : list event;
  _TOOLS_INSTANCE : option ToolsObject
}.

(** The outside world: the environment, the file system behind pandas and
    matplotlib, the installed LangChain and the LLM behind it.  Each field
    says how the corresponding library call answers. *)
Record External : Type := mk_external {
  os_getenv : string -> option string;
  os_sep : string;
  os_path_join : string -> string -> string;
  (** [os.path.dirname(os.path.dirname(os.path.abspath(__file__)))] *)
  base_dir : string;
  (** [if not os.path.exists(d): os.makedirs(d)] *)
  ensure_dir : string -> outcome unit;
  (** the four [read_csv], the [groupby], the [merge]s and [fillna] of
      [load_data], given [data_dir] *)
  read_and_merge : string -> outcome DataFrame;
  (** the bodies of the seven analyses below their [self.df is None]
      guard, given [self.df] and, where a plot is saved, [plot_dir] *)
  summary_stats_of : DataFrame -> outcome string;
  delivery_impact_of : DataFrame -> string -> outcome string;
  channels_of : DataFrame -> string -> outcome string;
  city_impact_of : DataFrame -> outcome string;
  demographics_of : DataFrame -> outcome string;
  engagement_of : DataFrame -> string -> outcome string;
  train_model_of : DataFrame -> string -> outcome string;
  (** [from langchain.agents import create_openai_tools_agent, AgentExecutor] *)
  import_langchain_agents : outcome unit;
  (** the constructors called in [ShopEaseAnalyst.__init__] *)
  new_ChatPromptTemplate : outcome unit;
  new_ChatOpenAI : outcome unit;
  new_openai_tools_agent : outcome unit;
  new_AgentExecutor : outcome unit;
  (** [agent_executor.invoke]: the LLM loop may print and call tools, so
      it is any function of the session *)
  executor_invoke : ExecutorObject -> gmap string string -> Session ->
                    outcome (gmap string string) * Session
}.

Definition M (A : Type) : Type := External -> Session -> outcome A * Session.

Definition ret {A : Type} (a : A) : M A := fun _ s => (Return a, s).

Definition raise {A : Type} (e : exn) : M A := fun _ s => (Raise e, s).

Definition bind {A B : Type} (m : M A) (k : A -> M B) : M B :=
  fun x s =>
    match m x s with
    | (Return a, s') => k a x s'
    | (Raise e, s') => (Raise e, s')
    end.

Declare Scope py_scope.
Delimit Scope py_scope with py.
Notation "x <- c ;; k" := (bind c (fun x => k))
  (at level 100, c at next level, right associativity) : py_scope.
Notation "c ;; k" := (bind c (fun _ => k))
  (at level 100, right associativity) : py_scope.
Open Scope py_scope.

(** A call into the outside world. *)
Definition call {A : Type} (f : External -> outcome A) : M A :=
  fun x s => (f x, s).

(** A pure computation that may raise. *)
Definition lift {A : Type} (o : outcome A) : M A := fun _ s => (o, s).

Definition emit (ev : event) : M unit :=
  fun _ s => (Return tt, mk_session (trace s ++ [ev]) (_TOOLS_INSTANCE s)).

Definition print (text : string) : M unit := emit (EvPrint text).

Definition get_TOOLS_INSTANCE : M (option ToolsObject) :=
  fun _ s => (Return (_TOOLS_INSTANCE s), s).

Definition set_TOOLS_INSTANCE (v : option ToolsObject) : M unit :=
  fun _ s => (Return tt, mk_session (trace s) v).

(** The [except] clauses of a [try], in order: the class test of each and
    its body. *)
Definition handlers (A : Type) : Type := list ((exn_class -> bool) * (exn -> M A)).

Fixpoint find_handler {A : Type} (hs : handlers A) (e : exn) : option (M A) :=
  match hs with
  | [] => None
  | (test, body) :: hs' =>
      if test (exn_cls e) then Some (body e) else find_handler hs' e
  end.

(** [try: body  except C1 as e: h1  except C2 as e: h2 ...]: what the
    body did before it raised stays done; an exception no clause matches
    goes on. *)
Definition try_except {A : Type} (body : M A) (hs : handlers A) : M A :=
  fun x s =>
    match body x s with
    | (Return a, s') => (Return a, s')
    | (Raise e, s') =>
        match find_handler hs e with
        | Some h => h x s'
        | None => (Raise e, s')
        end
    end.

(** ** tools.py *)

Module DataAnalystTools.

Definition load_data (self : ToolsObject) : M (ToolsObject * string) :=
  try_except
    (merged <- call (fun x => read_and_merge x (data_dir self)) ;;
     ret (mk_tools (data_dir self) (plot_dir self) (Some merged),
          "Data loaded successfully."))
    [(is_Exception,
      fun e => ret (self, "Error loading data: " ++ exn_str e))].

Definition __init__ (data_dir plot_dir : option string) : M ToolsObject :=
  base_dir <- call (fun x => Return (base_dir x)) ;;
  data_default <- call (fun x => Return (os_path_join x base_dir "data" ++ os_sep x)) ;;
  plot_default <- call (fun x => Return (os_path_join x base_dir "plots" ++ os_sep x)) ;;
  let self_data_dir :=
    if truthy data_dir then default EmptyString data_dir else data_default in
  let self_plot_dir :=
    if truthy plot_dir then default EmptyString plot_dir else plot_default in
  let self := mk_tools self_data_dir self_plot_dir None in
  call (fun x => ensure_dir x self_plot_dir) ;;
  r <- load_data self ;;
  ret (fst r).

Definition get_summary_stats (self : ToolsObject) : M string :=
  match df self with
  | None => ret "Error: Data not loaded."
  | Some d => call (fun x => summary_stats_of x d)
  end.

Definition analyze_delivery_impact (self : ToolsObject) : M string :=
  match df self with
  | None => ret "Error: Data not loaded."
  | Some d => call (fun x => delivery_impact_of x d (plot_dir self))
  end.

Definition analyze_channels (self : ToolsObject) : M string :=
  match df self with
  | None => ret "Error: Data not loaded."
  | Some d => call (fun x => channels_of x d (plot_dir self))
  end.

Definition analyze_city_impact (self : ToolsObject) : M string :=
  match df self with
  | None => ret "Error: Data not loaded."
  | Some d => call (fun x => city_impact_of x d)
  end.

Definition analyze_demographics (self : ToolsObject) : M string :=
  match df self with
  | None => ret "Error: Data not loaded."
  | Some d => call (fun x => demographics_of x d)
  end.

Definition analyze_engagement (self : ToolsObject) : M string :=
  match df self with
  | None => ret "Error: Data not loaded."
  | Some d => call (fun x => engagement_of x d (plot_dir self))
  end.

Definition train_model (self : ToolsObject) : M string :=
  match df self with
  | None => ret "Error: Data not loaded."
  | Some d => call (fun x => train_model_of x d (plot_dir self))
  end.

End DataAnalystTools.

Module tools.

Definition get_tools_instance : M ToolsObject :=
  inst <- get_TOOLS_INSTANCE ;;
  match inst with
  | None =>
      inst <- DataAnalystTools.__init__ None None ;;
      set_TOOLS_INSTANCE (Some inst) ;;
      ret inst
  | Some inst => ret inst
  end.

Definition get_data_summary : M string :=
  inst <- get_tools_instance ;; DataAnalystTools.get_summary_stats inst.

Definition analyze_delivery_impact : M string :=
  inst <- get_tools_instance ;; DataAnalystTools.analyze_delivery_impact inst.

Definition analyze_channel_performance : M string :=
  inst <- get_tools_instance ;; DataAnalystTools.analyze_channels inst.

Definition analyze_city_performance : M string :=
  inst <- get_tools_instance ;; DataAnalystTools.analyze_city_impact inst.

Definition analyze_demographics : M string :=
  inst <- get_tools_instance ;; DataAnalystTools.analyze_demographics inst.

Definition analyze_engagement : M string :=
  inst <- get_tools_instance ;; DataAnalystTools.analyze_engagement inst.

Definition train_predictive_model : M string :=
  inst <- get_tools_instance ;; DataAnalystTools.train_model inst.

End tools.

(** ** LangChain's [invoke] *)

(** [pydantic.ValidationError], raised when the input does not fit the
    tool's arguments (no call of the program does that). *)
Definition ValidationError : exn_class := Other "ValidationError" ValueError.

(** The function a tool wraps, applied to the arguments read from the
    input: [get_business_context] takes [query], given bare or under its
    name; the seven analyses take no argument, so whatever the input holds
    is left aside and the function is called as it is. *)
Definition tool_function (t : tool_id) (input : tool_input) : M string :=
  match t with
  | t_get_business_context =>
      match input with
      | InputStr query => lift (rag.get_business_context query)
      | InputDict d =>
          match d !! "query" with
          | Some query => lift (rag.get_business_context query)
          | None => raise (mk_exn ValidationError "query")
          end
      end
  | t_get_data_summary => tools.get_data_summary
  | t_analyze_delivery_impact => tools.analyze_delivery_impact
  | t_analyze_channel_performance => tools.analyze_channel_performance
  | t_analyze_city_performance => tools.analyze_city_performance
  | t_analyze_demographics => tools.analyze_demographics
  | t_analyze_engagement => tools.analyze_engagement
  | t_train_predictive_model => tools.train_predictive_model
  end.

(** [tool.invoke(input)] *)
Definition invoke (t : tool_id) (input : tool_input) : M string :=
  emit (EvInvokeTool t input) ;;
  tool_function t input.

(** [agent_executor.invoke(input)] *)
Definition invoke_executor (executor : ExecutorObject)
    (input : gmap string string) : M (gmap string string) :=
  emit (EvInvokeExecutor input) ;;
  (fun x s => executor_invoke x executor input s).

(** ** agent.py *)

(** The attributes of a [ShopEaseAnalyst]; [agent_executor] is [None]
    while the attribute is not set. *)
Record AnalystObject : Type := mk_analyst {
  analyst_tools : list tool_id;
  use_mock : bool;
  agent_executor : option ExecutorObject
}.

Module ShopEaseAnalyst.

Definition __init__ : M AnalystObject :=
  let self_tools :=
    [ t_get_business_context;
      t_get_data_summary;
      t_analyze_delivery_impact;
      t_analyze_channel_performance;
      t_analyze_city_performance;
      t_analyze_demographics;
      t_analyze_engagement;
      t_train_predictive_model ] in
  api_key <- call (fun x => Return (os_getenv x "OPENAI_API_KEY")) ;;
  let use_mock := false in
  if negb (truthy api_key)
     || from_option (fun k => startswith k "paste_your") false api_key
  then
    print "[SYSTEM] No valid OPENAI_API_KEY found. Switching to MOCK AGENT mode." ;;
    ret (mk_analyst self_tools true None)
  else
    try_except
      (emit (EvImport "langchain.agents") ;;
       call import_langchain_agents ;;
       emit (EvConstruct "ChatPromptTemplate") ;;
       call new_ChatPromptTemplate ;;
       emit (EvConstruct "ChatOpenAI") ;;
       call new_ChatOpenAI ;;
       emit (EvConstruct "create_openai_tools_agent") ;;
       call new_openai_tools_agent ;;
       emit (EvConstruct "AgentExecutor") ;;
       call new_AgentExecutor ;;
       ret (mk_analyst self_tools use_mock
              (Some (mk_executor self_tools true))))
      [ (is_ImportError,
         fun _ =>
           print "[SYSTEM] LangChain version incompatible. Switching to MOCK AGENT mode." ;;
           ret (mk_analyst self_tools true None));
        (is_Exception,
         fun e =>
           print ("[SYSTEM] Error initializing OpenAI Agent: " ++ exn_str e
                  ++ ". Switching to MOCK AGENT mode.") ;;
           ret (mk_analyst self_tools true None)) ].

(** The fixed text that closes the f-string of [_mock_process_query]. *)
Definition recommendation : string :=
  "Recommendation:" ++ nl
  ++ "(Simulated) Please investigate the highlighted metrics above, specifically targeting high-churn segments." ++ nl.

(** The f-string returned by [_mock_process_query]. *)
Definition final_response (plan result : string) : string :=
  nl ++ "--- AGENT RESPONSE (MOCK MODE) ---" ++ nl
  ++ "Based on the Mock Logic: The user asked about '" ++ plan ++ "'." ++ nl
  ++ nl
  ++ "Analysis Result:" ++ nl
  ++ result ++ nl
  ++ nl
  ++ recommendation
  ++ "----------------------" ++ nl.

Definition _mock_process_query (self : AnalystObject) (query : string) : M string :=
  print "[MOCK-AGENT] Consulting Knowledge Base..." ;;
  context <- invoke t_get_business_context (InputStr query) ;;
  print ("[MOCK-AGENT] Retrieved Context: " ++ slice_to 50 context ++ "...") ;;
  let q := lower query in
  let result := EmptyString in
  let plan := "check context" in
  rp <-
    (if str_in "delivery" q then
       print "[MOCK-AGENT] Decided to call tool: analyze_delivery_impact" ;;
       result <- invoke t_analyze_delivery_impact (InputDict ∅) ;;
       let plan := "investigate delivery times" in
       ret (result, plan)
     else if str_in "channel" q then
       print "[MOCK-AGENT] Decided to call tool: analyze_channel_performance" ;;
       result <- invoke t_analyze_channel_performance (InputDict ∅) ;;
       let plan := "check acquisition channels" in
       ret (result, plan)
     else if str_in "city" q || str_in "region" q then
       print "[MOCK-AGENT] Decided to call tool: analyze_city_performance" ;;
       result <- invoke t_analyze_city_performance (InputDict ∅) ;;
       let plan := "check city breaks" in
       ret (result, plan)
     else if str_in "gender" q || str_in "demograph" q then
       print "[MOCK-AGENT] Decided to call tool: analyze_demographics" ;;
       result <- invoke t_analyze_demographics (InputDict ∅) ;;
       ret (result, plan)
     else if str_in "visit" q || str_in "engage" q then
       print "[MOCK-AGENT] Decided to call tool: analyze_engagement" ;;
       result <- invoke t_analyze_engagement (InputDict ∅) ;;
       ret (result, plan)
     else if str_in "model" q || str_in "predict" q || str_in "driver" q then
       print "[MOCK-AGENT] Decided to call tool: train_predictive_model" ;;
       result <- invoke t_train_predictive_model (InputDict ∅) ;;
       let plan := "train ML model" in
       ret (result, plan)
     else
       print "[MOCK-AGENT] Decided to call tool: get_data_summary" ;;
       result <- invoke t_get_data_summary (InputDict ∅) ;;
       ret (result, plan)) ;;
  let final_response := final_response (snd rp) (fst rp) in
  ret final_response.

(** [self.agent_executor], an [AttributeError] while it is not set. *)
Definition get_agent_executor (self : AnalystObject) : outcome ExecutorObject :=
  match agent_executor self with
  | Some executor => Return executor
  | None =>
      Raise (mk_exn AttributeError
               "'ShopEaseAnalyst' object has no attribute 'agent_executor'")
  end.

Definition process_query (self : AnalystObject) (query : string) : M string :=
  print (nl ++ "[AGENT] Received Query: '" ++ query ++ "'") ;;
  if use_mock self then
    _mock_process_query self query
  else
    try_except
      (executor <- lift (get_agent_executor self) ;;
       response <- invoke_executor executor {[ "input" := query ]} ;;
       lift (getitem response "output"))
      [ (is_Exception,
         fun e =>
           print ("[ERROR] LangChain execution failed: " ++ exn_str e
                  ++ ". Falling back to Mock.") ;;
           _mock_process_query self query) ].

End ShopEaseAnalyst.


(** * Vocabulary of the properties *)

(** ** The knowledge base *)

(** The three keyword tests of [retrieve_context], on the lowered query. *)
Definition rule_problem (q : string) : bool :=
  str_in "churn" q || str_in "problem" q.
Definition rule_hypotheses (q : string) : bool :=
  str_in "delivery" q || str_in "discount" q || str_in "suspect" q.
Definition rule_constraints (q : string) : bool :=
  str_in "budget" q || str_in "cost" q.

(** The documents of the rules that match, in the order of the rules. *)
Definition matched_docs (q : string) : list string :=
  ((if rule_problem q then [problem_text] else [])
   ++ (if rule_hypotheses q then [hypotheses_text] else [])
   ++ (if rule_constraints q then [constraints_text] else []))%list.


(** ** The planner *)

(** The tool and the plan label of each branch of the [if]/[elif] chain of
    [_mock_process_query], on the lowered query. *)
Definition route (q : string) : tool_id * string :=
  if str_in "delivery" q then
    (t_analyze_delivery_impact, "investigate delivery times")
  else if str_in "channel" q then
    (t_analyze_channel_performance, "check acquisition channels")
  else if str_in "city" q || str_in "region" q then
    (t_analyze_city_performance, "check city breaks")
  else if str_in "gender" q || str_in "demograph" q then
    (t_analyze_demographics, "check context")
  else if str_in "visit" q || str_in "engage" q then
    (t_analyze_engagement, "check context")
  else if str_in "model" q || str_in "predict" q || str_in "driver" q then
    (t_train_predictive_model, "train ML model")
  else
    (t_get_data_summary, "check context").

(** What a tool answers when it is invoked with no arguments, and what it
    leaves in [_TOOLS_INSTANCE]: the tools neither read nor write the
    trace. *)
Definition run_tool (t : tool_id) (x : External) (inst : option ToolsObject)
    : outcome string * option ToolsObject :=
  let r := tool_function t (InputDict ∅) x (mk_session [] inst) in
  (fst r, _TOOLS_INSTANCE (snd r)).

(** A computation is framed when it neither reads nor writes the trace:
    run on any trace, it answers and leaves in [_TOOLS_INSTANCE] what it
    does on the empty trace. *)
Definition framed {A : Type} (m : M A) : Prop :=
  forall x tr inst,
    m x (mk_session tr inst) =
    (fst (m x (mk_session [] inst)),
     mk_session tr (_TOOLS_INSTANCE (snd (m x (mk_session [] inst))))).

(** The tool invocations in a stretch of the trace, in order. *)
Fixpoint invoked (evs : list event) : list (tool_id * tool_input) :=
  match evs with
  | [] => []
  | EvInvokeTool t input :: evs' => (t, input) :: invoked evs'
  | _ :: evs' => invoked evs'
  end.

(** What one run of the planner adds to the trace, given the context it
    retrieved and the tool it chose. *)
Definition planner_events (query context : string) (t : tool_id) : list event :=
  [ EvPrint "[MOCK-AGENT] Consulting Knowledge Base...";
    EvInvokeTool t_get_business_context (InputStr query);
    EvPrint ("[MOCK-AGENT] Retrieved Context: " ++ slice_to 50 context ++ "...");
    EvPrint ("[MOCK-AGENT] Decided to call tool: " ++ tool_name t);
    EvInvokeTool t (InputDict ∅) ].

(** The context the knowledge base holds for a query. *)
Definition context_of (query : string) : string :=
  join nl (match matched_docs (lower query) with
           | [] => [background_text]
           | d :: ds => d :: ds
           end).

(** [self.tools] as [ShopEaseAnalyst.__init__] builds it. *)
Definition all_tools : list tool_id :=
  [ t_get_business_context;
    t_get_data_summary;
    t_analyze_delivery_impact;
    t_analyze_channel_performance;
    t_analyze_city_performance;
    t_analyze_demographics;
    t_analyze_engagement;
    t_train_predictive_model ].

(** The imports and constructions of the Primary mode in a stretch of the
    trace. *)
Fixpoint constructions (evs : list event) : list string :=
  match evs with
  | [] => []
  | EvImport m :: evs' => m :: constructions evs'
  | EvConstruct c :: evs' => c :: constructions evs'
  | _ :: evs' => constructions evs'
  end.

(** The plan label the planner writes for the tool it dispatched. *)
Definition plan_label (t : tool_id) : string :=
  match t with
  | t_analyze_delivery_impact => "investigate delivery times"
  | t_analyze_channel_performance => "check acquisition channels"
  | t_analyze_city_performance => "check city breaks"
  | t_train_predictive_model => "train ML model"
  | t_analyze_demographics | t_analyze_engagement | t_get_data_summary
  | t_get_business_context => "check context"
  end.

(** The tools whose branch of the planner leaves [plan] as it was
    initialised. *)
Definition keeps_default_label (t : tool_id) : bool :=
  match t with
  | t_analyze_demographics | t_analyze_engagement | t_get_data_summary => true
  | _ => false
  end.

(** The dataset is unavailable: the tools object holds no table, or there
    is no tools object yet and building one finds the plot directory but
    fails, with an [Exception], to load the data. *)
Definition dataset_unavailable (x : External) (inst : option ToolsObject) : bool :=
  match inst with
  | Some i => match df i with None => true | Some _ => false end
  | None =>
      match ensure_dir x (os_path_join x (base_dir x) "plots" ++ os_sep x),
            read_and_merge x (os_path_join x (base_dir x) "data" ++ os_sep x) with
      | Return _, Raise e => is_Exception (exn_cls e)
      | _, _ => false
      end
  end.

(** ** Sample worlds *)

Definition sample_frame : DataFrame :=
  mk_frame
    [ "customer_id"; "is_churned"; "monthly_visits"; "avg_delivery_days" ]
    [ [ "C001"; "1"; "2"; "6.5" ]; [ "C002"; "0"; "9"; "3.2" ] ].

(** A world with the given credential, in which loading the data, the
    delivery analysis and the LLM answer as given; everything else
    succeeds. *)
Definition sample_world (key : option string) (load : outcome DataFrame)
    (delivery : outcome string) (llm : outcome (gmap string string)) : External :=
  {| os_getenv := fun name => if String.eqb name "OPENAI_API_KEY" then key else None;
     os_sep := "/";
     os_path_join := fun a b => a ++ "/" ++ b;
     base_dir := "/app";
     ensure_dir := fun _ => Return tt;
     read_and_merge := fun _ => load;
     summary_stats_of := fun _ =>
       Return "Summary: 2 Customers, 50.00% Churn Rate, Total Revenue: INR 1,200";
     delivery_impact_of := fun _ _ => delivery;
     channels_of := fun _ dir =>
       Return ("Channel Analysis:" ++ nl ++ "[VISUALIZATION]: " ++ dir ++ "channel_churn.png");
     city_impact_of := fun _ => Return ("Churn by City:" ++ nl);
     demographics_of := fun _ => Return ("Churn by Gender:" ++ nl);
     engagement_of := fun _ dir =>
       Return ("Engagement: Churned (2.0) vs Retained (9.0) visits." ++ nl
               ++ "[VISUALIZATION]: " ++ dir ++ "engagement_impact.png");
     train_model_of := fun _ dir =>
       Return ("Model Trained. Top Factors:" ++ nl
               ++ "[VISUALIZATION]: " ++ dir ++ "feature_importance.png");
     import_langchain_agents := Return tt;
     new_ChatPromptTemplate := Return tt;
     new_ChatOpenAI := Return tt;
     new_openai_tools_agent := Return tt;
     new_AgentExecutor := Return tt;
     executor_invoke := fun _ _ s => (llm, s) |}.

Definition delivery_text : string :=
  "Delivery Analysis: Churned (6.5 days) vs Retained (3.2 days)." ++ nl
  ++ "[VISUALIZATION]: /app/plots/delivery_impact.png".

Definition llm_answer : gmap string string :=
  {[ "output" := "Churned customers wait longer for their orders." ]}.

(** No credential, data on disk. *)
Definition mock_world : External :=
  sample_world None (Return sample_frame) (Return delivery_text) (Return llm_answer).

(** No credential, no data files. *)
Definition no_data_world : External :=
  sample_world None
    (Raise (mk_exn (Other "FileNotFoundError" OSError)
              "[Errno 2] No such file or directory: '/app/data/customers.csv'"))
    (Return delivery_text) (Return llm_answer).

(** No credential, data on disk without the column the delivery analysis
    reads. *)
Definition broken_column_world : External :=
  sample_world None (Return sample_frame)
    (Raise (mk_exn KeyError "'avg_delivery_days'")) (Return llm_answer).

(** A credential, and an LLM service that cannot be reached. *)
Definition llm_down_world : External :=
  sample_world (Some "sk-live-key") (Return sample_frame) (Return delivery_text)
    (Raise (mk_exn (Other "APIConnectionError" Exception) "Connection error.")).

(** A credential, and a user who interrupts the LLM call. *)
Definition interrupted_world : External :=
  sample_world (Some "sk-live-key") (Return sample_frame) (Return delivery_text)
    (Raise (mk_exn KeyboardInterrupt EmptyString)).

(** The placeholder credential of the sample [.env] file. *)
Definition placeholder_world : External :=
  sample_world (Some "paste_your_key_here") (Return sample_frame)
    (Return delivery_text) (Return llm_answer).

(** The session of a process that has just started. *)
Definition fresh : Session := mk_session [] None.

(** The agent [__init__] builds when the Primary mode is available. *)
Definition primary_analyst : AnalystObject :=
  mk_analyst all_tools false (Some (mk_executor all_tools true)).

(** The agent [__init__] builds otherwise. *)
Definition mock_analyst : AnalystObject := mk_analyst all_tools true None.

(** ** Further vocabulary *)

(** The four keys [retrieve_context] reads. *)
Definition document_keys : list string :=
  [ "background"; "problem"; "hypotheses"; "constraints" ].

(** A knowledge base that holds a document under each of the four keys. *)
Definition has_all_documents (self : BusinessKnowledgeBase.t) : Prop :=
  forall key, In key document_keys ->
    is_Some (BusinessKnowledgeBase.documents self !! key).

(** A knowledge base with no document at all. *)
Definition empty_kb : BusinessKnowledgeBase.t := BusinessKnowledgeBase.mk ∅.

(** The directories [DataAnalystTools.__init__] falls back to. *)
Definition default_data_dir (x : External) : string :=
  os_path_join x (base_dir x) "data" ++ os_sep x.
Definition default_plot_dir (x : External) : string :=
  os_path_join x (base_dir x) "plots" ++ os_sep x.

(** A sample world in which the plot directory cannot be created. *)
Definition read_only_world : External :=
  {| os_getenv := os_getenv mock_world;
     os_sep := os_sep mock_world;
     os_path_join := os_path_join mock_world;
     base_dir := base_dir mock_world;
     ensure_dir := fun _ =>
       Raise (mk_exn (Other "PermissionError" OSError)
                "[Errno 13] Permission denied: '/app/plots/'");
     read_and_merge := read_and_merge mock_world;
     summary_stats_of := summary_stats_of mock_world;
     delivery_impact_of := delivery_impact_of mock_world;
     channels_of := channels_of mock_world;
     city_impact_of := city_impact_of mock_world;
     demographics_of := demographics_of mock_world;
     engagement_of := engagement_of mock_world;
     train_model_of := train_model_of mock_world;
     import_langchain_agents := import_langchain_agents mock_world;
     new_ChatPromptTemplate := new_ChatPromptTemplate mock_world;
     new_ChatOpenAI := new_ChatOpenAI mock_world;
     new_openai_tools_agent := new_openai_tools_agent mock_world;
     new_AgentExecutor := new_AgentExecutor mock_world;
     executor_invoke := executor_invoke mock_world |}.

(** What an analysis answers on a tools object: the guard on [self.df],
    then the analysis itself. *)
Definition analysis_of (t : tool_id) (x : External) (inst : ToolsObject)
    : outcome string :=
  match df inst with
  | None => Return "Error: Data not loaded."
  | Some frame =>
      match t with
      | t_get_data_summary => summary_stats_of x frame
      | t_analyze_delivery_impact => delivery_impact_of x frame (plot_dir inst)
      | t_analyze_channel_performance => channels_of x frame (plot_dir inst)
      | t_analyze_city_performance => city_impact_of x frame
      | t_analyze_demographics => demographics_of x frame
      | t_analyze_engagement => engagement_of x frame (plot_dir inst)
      | t_train_predictive_model => train_model_of x frame (plot_dir inst)
      | t_get_business_context => Raise (mk_exn ValidationError "query")
      end
  end.

(** ** The router *)

(** The credential test of [ShopEaseAnalyst.__init__]: set, not empty, and
    not the placeholder. *)
Definition usable_key (api_key : option string) : bool :=
  match api_key with
  | None => false
  | Some key => negb (String.eqb key EmptyString)
                && negb (startswith key "paste_your")
  end.

(** The five steps of the [try] block of [ShopEaseAnalyst.__init__], each
    with the event it leaves and the way the outside world answers it. *)
Definition construction_steps (x : External) : list (event * outcome unit) :=
  [ (EvImport "langchain.agents", import_langchain_agents x);
    (EvConstruct "ChatPromptTemplate", new_ChatPromptTemplate x);
    (EvConstruct "ChatOpenAI", new_ChatOpenAI x);
    (EvConstruct "create_openai_tools_agent", new_openai_tools_agent x);
    (EvConstruct "AgentExecutor", new_AgentExecutor x) ].

(** Steps run in order until one raises: the events left, and the
    exception if any. *)
Fixpoint run_steps (steps : list (event * outcome unit))
    : list event * option exn :=
  match steps with
  | [] => ([], None)
  | (ev, Return _) :: rest =>
      let r := run_steps rest in (ev :: fst r, snd r)
  | (ev, Raise e) :: _ => ([ev], Some e)
  end.

(** The executor invocations in a stretch of the trace. *)
Fixpoint executor_calls (evs : list event) : list (gmap string string) :=
  match evs with
  | [] => []
  | EvInvokeExecutor input :: evs' => input :: executor_calls evs'
  | _ :: evs' => executor_calls evs'
  end.

(** The lines printed in a stretch of the trace. *)
Fixpoint printed (evs : list event) : list string :=
  match evs with
  | [] => []
  | EvPrint text :: evs' => text :: printed evs'
  | _ :: evs' => printed evs'
  end.

(** A sample world with a credential in which [langchain.agents] cannot be
    imported. *)
Definition no_langchain_world : External :=
  {| os_getenv := os_getenv llm_down_world;
     os_sep := os_sep mock_world;
     os_path_join := os_path_join mock_world;
     base_dir := base_dir mock_world;
     ensure_dir := ensure_dir mock_world;
     read_and_merge := read_and_merge mock_world;
     summary_stats_of := summary_stats_of mock_world;
     delivery_impact_of := delivery_impact_of mock_world;
     channels_of := channels_of mock_world;
     city_impact_of := city_impact_of mock_world;
     demographics_of := demographics_of mock_world;
     engagement_of := engagement_of mock_world;
     train_model_of := train_model_of mock_world;
     import_langchain_agents :=
       Raise (mk_exn ModuleNotFoundError "No module named 'langchain.agents'");
     new_ChatPromptTemplate := new_ChatPromptTemplate mock_world;
     new_ChatOpenAI := new_ChatOpenAI mock_world;
     new_openai_tools_agent := new_openai_tools_agent mock_world;
     new_AgentExecutor := new_AgentExecutor mock_world;
     executor_invoke := executor_invoke mock_world |}.

(** A credential, and an LLM that answers. *)
Definition llm_up_world : External :=
  sample_world (Some "sk-live-key") (Return sample_frame) (Return delivery_text)
    (Return llm_answer).

(** A credential, and an LLM whose answer lacks the "output" entry. *)
Definition llm_mute_world : External :=
  sample_world (Some "sk-live-key") (Return sample_frame) (Return delivery_text)
    (Return {[ "input" := "Hello" ]}).

(** ** The planner as a table *)


(** * Properties *)

(** ** Strings *)

(** stdpp freezes [append] under [simpl]; the proofs below compute with it. *)
#[local] Arguments String.append !_ _ / : simpl nomatch.

Section StringFacts.

Lemma prefix_app (p s : string) : String.prefix p (p ++ s) = true.
Proof.
  induction p as [|c p IH]; simpl.
  - now destruct s.
  - destruct (ascii_dec c c) as [_|Hne]; [exact IH | now elim Hne].
Qed.

Lemma prefix_inv (p s : string) :
  String.prefix p s = true -> exists rest, s = p ++ rest.
Proof.
  revert s; induction p as [|c p IH]; intros s H.
  - now exists s.
  - destruct s as [|d s]; simpl in H; [discriminate|].
    destruct (ascii_dec c d) as [->|]; [|discriminate].
    destruct (IH _ H) as [rest ->]. now exists rest.
Qed.

Lemma str_in_unfold (sub s : string) :
  str_in sub s =
  String.prefix sub s ||
  match s with
  | EmptyString => false
  | String _ s' => str_in sub s'
  end.
Proof. destruct s; reflexivity. Qed.

Lemma str_in_here (sub rest : string) : str_in sub (sub ++ rest) = true.
Proof. rewrite str_in_unfold, prefix_app. reflexivity. Qed.

Lemma str_in_app (sub before rest : string) :
  str_in sub (before ++ sub ++ rest) = true.
Proof.
  induction before as [|c before IH].
  - exact (str_in_here sub rest).
  - rewrite str_in_unfold. cbn [append]. rewrite IH. apply orb_true_r.
Qed.

(** [str_in] is Python's [in]: an occurrence somewhere in the text. *)
Lemma str_in_spec (sub s : string) :
  str_in sub s = true <-> exists before rest, s = before ++ sub ++ rest.
Proof.
  split.
  - induction s as [|c s IH]; rewrite str_in_unfold; intros H.
    + rewrite orb_false_r in H. apply prefix_inv in H as [rest ->].
      now exists EmptyString, rest.
    + apply orb_true_iff in H as [H|H].
      * apply prefix_inv in H as [rest ->]. now exists EmptyString, rest.
      * destruct (IH H) as (before & rest & ->).
        now exists (String c before), rest.
  - intros (before & rest & ->). apply str_in_app.
Qed.

Lemma str_in_skip (sub before s : string) :
  str_in sub s = true -> str_in sub (before ++ s) = true.
Proof.
  intros H. induction before as [|c before IH]; [exact H|].
  rewrite str_in_unfold. cbn [append]. rewrite IH. apply orb_true_r.
Qed.

Lemma prefix_app_same (a p s : string) :
  String.prefix (a ++ p) (a ++ s) = String.prefix p s.
Proof.
  induction a as [|c a IH]; cbn [append String.prefix]; [reflexivity|].
  destruct (ascii_dec c c) as [_|Hne]; [exact IH | now elim Hne].
Qed.

Lemma app_assoc_str (a b c : string) : (a ++ b) ++ c = a ++ b ++ c.
Proof. induction a as [|x a IH]; simpl; [reflexivity | now rewrite IH]. Qed.

End StringFacts.

(** ** The knowledge base *)

Section KnowledgeBase.

Import BusinessKnowledgeBase.

Lemma documents_getitem :
  getitem (documents _RAG_INSTANCE) "background" = Return background_text /\
  getitem (documents _RAG_INSTANCE) "problem" = Return problem_text /\
  getitem (documents _RAG_INSTANCE) "hypotheses" = Return hypotheses_text /\
  getitem (documents _RAG_INSTANCE) "constraints" = Return constraints_text.
Proof. repeat split; vm_compute; reflexivity. Qed.

(** [retrieve_context] never raises: every key it reads is in the dict. *)
Lemma relevant_docs_run (query : string) :
  relevant_docs _RAG_INSTANCE query =
  Return (match matched_docs (lower query) with
          | [] => [background_text]
          | d :: ds => d :: ds
          end).
Proof.
  destruct documents_getitem as (Hb & Hp & Hh & Hc).
  unfold relevant_docs, append_if, matched_docs.
  fold (rule_problem (lower query)) (rule_hypotheses (lower query))
       (rule_constraints (lower query)).
  destruct (rule_problem (lower query)), (rule_hypotheses (lower query)),
           (rule_constraints (lower query));
    rewrite ?Hb, ?Hp, ?Hh, ?Hc; cbn [outcome_bind app];
    rewrite ?Hb, ?Hp, ?Hh, ?Hc; cbn [outcome_bind app];
    rewrite ?Hb, ?Hp, ?Hh, ?Hc; cbn [outcome_bind app];
    rewrite ?Hb, ?Hp, ?Hh, ?Hc; reflexivity.
Qed.

Lemma retrieve_context_run (query : string) :
  retrieve_context _RAG_INSTANCE query =
  Return (join nl (match matched_docs (lower query) with
                   | [] => [background_text]
                   | d :: ds => d :: ds
                   end)).
Proof.
  unfold retrieve_context. rewrite relevant_docs_run. reflexivity.
Qed.

End KnowledgeBase.

(** ** The tools *)

Create HintDb framed.

Section Framed.

Context {A B : Type}.

Lemma framed_ret (a : A) : framed (ret a).
Proof. now intros x tr inst. Qed.

Lemma framed_raise (e : exn) : framed (@raise A e).
Proof. now intros x tr inst. Qed.

Lemma framed_call (f : External -> outcome A) : framed (call f).
Proof. now intros x tr inst. Qed.

Lemma framed_lift (o : outcome A) : framed (lift o).
Proof. now intros x tr inst. Qed.

Lemma framed_bind (m : M A) (k : A -> M B) :
  framed m -> (forall a, framed (k a)) -> framed (bind m k).
Proof.
  intros Hm Hk x tr inst. unfold bind. rewrite (Hm x tr inst).
  destruct (m x (mk_session [] inst)) as [[a|e] [tr0 inst0]]; cbn.
  - rewrite (Hk a x tr inst0), (Hk a x tr0 inst0). reflexivity.
  - reflexivity.
Qed.

Lemma framed_try_except (body : M A) (hs : handlers A) :
  framed body ->
  (forall e h, find_handler hs e = Some h -> framed h) ->
  framed (try_except body hs).
Proof.
  intros Hb Hh x tr inst. unfold try_except. rewrite (Hb x tr inst).
  destruct (body x (mk_session [] inst)) as [[a|e] [tr0 inst0]]; cbn.
  - reflexivity.
  - destruct (find_handler hs e) as [h|] eqn:E; [|reflexivity].
    rewrite (Hh e h E x tr inst0), (Hh e h E x tr0 inst0). reflexivity.
Qed.

End Framed.

Lemma framed_get_TOOLS_INSTANCE : framed get_TOOLS_INSTANCE.
Proof. now intros x tr inst. Qed.

Lemma framed_set_TOOLS_INSTANCE (v : option ToolsObject) :
  framed (set_TOOLS_INSTANCE v).
Proof. now intros x tr inst. Qed.

#[local] Hint Resolve framed_ret framed_raise framed_call framed_lift
  framed_get_TOOLS_INSTANCE framed_set_TOOLS_INSTANCE : framed.

(** Splits a computation built from [bind], [try_except] and matches on
    the object's attributes into its framed parts. *)
Ltac framed_step :=
  match goal with
  | |- framed (bind _ _) => apply framed_bind; [|intros ?]
  | |- framed (match ?o with Some _ => _ | None => _ end) => destruct o
  | |- framed _ => solve [auto with framed]
  end.

Section Tools.

Lemma framed_load_data (self : ToolsObject) :
  framed (DataAnalystTools.load_data self).
Proof.
  unfold DataAnalystTools.load_data. apply framed_try_except.
  - repeat framed_step.
  - intros e h. cbn. destruct (is_Exception (exn_cls e)); [|discriminate].
    intros [= <-]. auto with framed.
Qed.

Lemma framed_tools_init (data_dir plot_dir : option string) :
  framed (DataAnalystTools.__init__ data_dir plot_dir).
Proof.
  unfold DataAnalystTools.__init__.
  repeat framed_step. apply framed_load_data.
Qed.

Lemma framed_get_tools_instance : framed tools.get_tools_instance.
Proof.
  unfold tools.get_tools_instance.
  repeat framed_step. apply framed_tools_init.
Qed.

Lemma framed_tool_function (t : tool_id) (input : tool_input) :
  framed (tool_function t input).
Proof.
  destruct t, input; cbn [tool_function];
    try solve [auto with framed];
    try (destruct (_ !! _); solve [auto with framed]);
    apply framed_bind; try apply framed_get_tools_instance;
    intros [dd pd [frame|]]; cbn; auto with framed.
Qed.

(** An analysis tool leaves the trace alone; its answer depends on the
    outside world and on [_TOOLS_INSTANCE] only. *)
Lemma tool_function_frame (t : tool_id) (x : External) (s : Session) :
  tool_function t (InputDict ∅) x s =
  (fst (run_tool t x (_TOOLS_INSTANCE s)),
   mk_session (trace s) (snd (run_tool t x (_TOOLS_INSTANCE s)))).
Proof.
  destruct s as [tr inst]. unfold run_tool. cbn [fst snd trace _TOOLS_INSTANCE].
  apply framed_tool_function.
Qed.

End Tools.

(** ** The planner *)

Section Planner.

Import ShopEaseAnalyst.

Lemma get_business_context_run (query : string) :
  rag.get_business_context query = Return (context_of query).
Proof. apply retrieve_context_run. Qed.

(** One branch of the planner: the announcement, the call, the label. *)
Lemma branch_run (t : tool_id) (plan : string) (x : External) (s : Session) :
  (print ("[MOCK-AGENT] Decided to call tool: " ++ tool_name t) ;;
   result <- invoke t (InputDict ∅) ;;
   ret (result, plan)) x s =
  let r := run_tool t x (_TOOLS_INSTANCE s) in
  (match fst r with
   | Return result => Return (result, plan)
   | Raise e => Raise e
   end,
   mk_session
     (trace s ++ [ EvPrint ("[MOCK-AGENT] Decided to call tool: " ++ tool_name t);
                   EvInvokeTool t (InputDict ∅) ])
     (snd r)).
Proof.
  unfold invoke, print, emit, bind, ret. rewrite tool_function_frame.
  cbn [trace _TOOLS_INSTANCE fst snd].
  destruct (run_tool t x (_TOOLS_INSTANCE s)) as [[result|e] inst'];
    cbn [fst snd]; rewrite <- app_assoc; reflexivity.
Qed.

(** What the planner does, in full: the five events it adds, the tool it
    runs and the response it builds from the tool's answer. *)
Lemma mock_process_query_run (self : AnalystObject) (query : string)
    (x : External) (s : Session) :
  _mock_process_query self query x s =
  let t := fst (route (lower query)) in
  let plan := snd (route (lower query)) in
  let r := run_tool t x (_TOOLS_INSTANCE s) in
  (match fst r with
   | Return result => Return (final_response plan result)
   | Raise e => Raise e
   end,
   mk_session (trace s ++ planner_events query (context_of query) t) (snd r)).
Proof.
  unfold _mock_process_query.
  set (branches := if str_in "delivery" (lower query) then _ else _).
  assert (Hb : forall s1,
    branches x s1 =
    let r := run_tool (fst (route (lower query))) x (_TOOLS_INSTANCE s1) in
    (match fst r with
     | Return result => Return (result, snd (route (lower query)))
     | Raise e => Raise e
     end,
     mk_session
       (trace s1 ++ [ EvPrint ("[MOCK-AGENT] Decided to call tool: "
                               ++ tool_name (fst (route (lower query))));
                      EvInvokeTool (fst (route (lower query))) (InputDict ∅) ])
       (snd r))).
  { intros s1. subst branches. unfold route.
    repeat match goal with
           | |- context [if ?b then _ else _] => destruct b
           end; apply branch_run. }
  unfold invoke at 1. cbn [tool_function].
  rewrite get_business_context_run.
  unfold print, emit, lift, bind at 1 2 3 4 5. cbn [trace _TOOLS_INSTANCE].
  unfold bind, ret. rewrite Hb. cbn [trace _TOOLS_INSTANCE fst snd].
  destruct (run_tool _ x (_TOOLS_INSTANCE s)) as [[result|e] inst'];
    cbn [fst snd]; unfold planner_events;
    rewrite <- !app_assoc; reflexivity.
Qed.

(** The response shows its three fields. *)
Lemma final_response_embeds (plan result : string) :
  str_in plan (final_response plan result) = true
  /\ str_in result (final_response plan result) = true
  /\ str_in recommendation (final_response plan result) = true.
Proof.
  unfold final_response. repeat split.
  - do 4 apply str_in_skip. apply str_in_here.
  - do 10 apply str_in_skip. apply str_in_here.
  - do 13 apply str_in_skip. apply str_in_here.
Qed.

(** The response opens with the fixed header and the plan label in its
    quotes. *)
Lemma final_response_opening (plan result : string) :
  String.prefix
    (nl ++ "--- AGENT RESPONSE (MOCK MODE) ---" ++ nl
     ++ "Based on the Mock Logic: The user asked about '" ++ plan ++ "'." ++ nl)
    (final_response plan result) = true.
Proof.
  unfold final_response. rewrite !prefix_app_same. apply prefix_app.
Qed.

(** In Fallback mode the router logs the query and hands it to the
    planner. *)
Lemma process_query_mock_run (self : AnalystObject) (query : string)
    (x : External) (s : Session) :
  use_mock self = true ->
  process_query self query x s =
  _mock_process_query self query x
    (mk_session (trace s ++ [EvPrint (nl ++ "[AGENT] Received Query: '" ++ query ++ "'")])
       (_TOOLS_INSTANCE s)).
Proof.
  intros Hmock. unfold process_query. rewrite Hmock. reflexivity.
Qed.

(** The label the planner writes is the one of the tool it dispatches. *)
Lemma route_label (q : string) : snd (route q) = plan_label (fst (route q)).
Proof.
  unfold route.
  repeat match goal with
         | |- context [if ?b then _ else _] => destruct b
         end; reflexivity.
Qed.

(** The planner never dispatches the knowledge base as its analysis. *)
Lemma route_not_context (q : string) : fst (route q) <> t_get_business_context.
Proof.
  unfold route.
  repeat match goal with
         | |- context [if ?b then _ else _] => destruct b
         end; discriminate.
Qed.

(** With no table to analyse, every analysis answers with the same error
    text instead of raising. *)
Lemma missing_data_is_reported (t : tool_id) (x : External)
    (inst : option ToolsObject) :
  t <> t_get_business_context ->
  dataset_unavailable x inst = true ->
  fst (run_tool t x inst) = Return "Error: Data not loaded.".
Proof.
  intros Ht Hdata. unfold run_tool, dataset_unavailable in *.
  destruct inst as [[dd pd [frame|]]|]; [discriminate| |].
  - destruct t; try congruence; reflexivity.
  - destruct (ensure_dir x _) as [[]|] eqn:Hdir; [|discriminate].
    destruct (read_and_merge x _) as [|e] eqn:Hload; [discriminate|].
    destruct t; try congruence;
      cbv [tool_function
           tools.get_data_summary tools.analyze_delivery_impact
           tools.analyze_channel_performance tools.analyze_city_performance
           tools.analyze_demographics tools.analyze_engagement
           tools.train_predictive_model tools.get_tools_instance
           DataAnalystTools.__init__ DataAnalystTools.load_data
           try_except bind ret call get_TOOLS_INSTANCE set_TOOLS_INSTANCE
           truthy _TOOLS_INSTANCE data_dir];
      rewrite Hdir, Hload; cbn [find_handler fst]; rewrite Hdata; reflexivity.
Qed.

End Planner.

(** * The claims *)

(** ** Knowledge base retrieval *)

Section RetrievalClaims.

Import BusinessKnowledgeBase.

(** C6.  When the lowered query matches at least two of the three
    knowledge-base rules, retrieval returns the document of every rule
    that matched, in the order the rules are declared (problem, then
    hypotheses, then constraints), joined by line feeds: at least two
    documents, never one alone.  In particular a query with "churn" and
    "budget" gets the problem document before the constraints document. *)
Theorem retrieval_keeps_every_match_in_rule_order (query : string) :
  (2 <= length (matched_docs (lower query)))%nat ->
  relevant_docs _RAG_INSTANCE query = Return (matched_docs (lower query))
  /\ retrieve_context _RAG_INSTANCE query
     = Return (join nl (matched_docs (lower query)))
  /\ (str_in "churn" (lower query) = true ->
      str_in "budget" (lower query) = true ->
      exists between,
        matched_docs (lower query)
        = (problem_text :: between ++ [constraints_text])%list).
Proof.
  intros Hlen.
  rewrite retrieve_context_run, relevant_docs_run.
  destruct (matched_docs (lower query)) as [|d ds] eqn:E;
    [cbn in Hlen; lia|].
  repeat split.
  intros Hchurn Hbudget. rewrite <- E. unfold matched_docs.
  unfold rule_problem, rule_constraints. rewrite Hchurn, Hbudget.
  rewrite orb_true_l.
  exists (if rule_hypotheses (lower query) then [hypotheses_text] else []).
  reflexivity.
Qed.

Lemma retrieval_keeps_every_match_in_rule_order_witness :
  relevant_docs _RAG_INSTANCE "Is CHURN worth the budget?"
  = Return [problem_text; constraints_text]
  /\ retrieve_context _RAG_INSTANCE "Is CHURN worth the budget?"
     = Return (problem_text ++ nl ++ constraints_text).
Proof.
  destruct (retrieval_keeps_every_match_in_rule_order
              "Is CHURN worth the budget?") as (Hdocs & Hctx & _).
  - vm_compute. lia.
  - split; [exact Hdocs | exact Hctx].
Defined.

(** C7.  Retrieval always returns, and returns at least one document;
    when the lowered query contains none of the keywords of the three
    rules, it returns the background document and nothing else. *)
Theorem retrieval_defaults_to_background (query : string) :
  (exists docs,
      relevant_docs _RAG_INSTANCE query = Return docs
      /\ (1 <= length docs)%nat
      /\ retrieve_context _RAG_INSTANCE query = Return (join nl docs))
  /\ (rule_problem (lower query) = false ->
      rule_hypotheses (lower query) = false ->
      rule_constraints (lower query) = false ->
      relevant_docs _RAG_INSTANCE query = Return [background_text]
      /\ retrieve_context _RAG_INSTANCE query = Return background_text).
Proof.
  rewrite retrieve_context_run, relevant_docs_run. split.
  - eexists. split; [reflexivity|]. split; [|reflexivity].
    destruct (matched_docs (lower query)); cbn; lia.
  - intros H1 H2 H3. unfold matched_docs. rewrite H1, H2, H3.
    split; reflexivity.
Qed.

Lemma retrieval_defaults_to_background_witness :
  relevant_docs _RAG_INSTANCE "Hello" = Return [background_text]
  /\ retrieve_context _RAG_INSTANCE "Hello" = Return background_text.
Proof.
  apply (proj2 (retrieval_defaults_to_background "Hello"));
    vm_compute; reflexivity.
Defined.

End RetrievalClaims.

(** ** The rule-based planner *)

Section PlannerClaims.

Import ShopEaseAnalyst.



(** C3.  When the lowered query contains both "delivery" and "channel",
    the planner takes the delivery branch: it announces and invokes the
    delivery-impact tool, it does not invoke the channel tool, and its
    response, when the tool returns, carries the delivery plan label. *)
Theorem delivery_wins_over_channel (self : AnalystObject) (query : string)
    (x : External) (s : Session) :
  str_in "delivery" (lower query) = true ->
  str_in "channel" (lower query) = true ->
  exists evs,
    trace (snd (_mock_process_query self query x s)) = (trace s ++ evs)%list
    /\ invoked evs = [ (t_get_business_context, InputStr query);
                       (t_analyze_delivery_impact, InputDict ∅) ]
    /\ In (EvPrint "[MOCK-AGENT] Decided to call tool: analyze_delivery_impact") evs
    /\ (forall input, ~ In (t_analyze_channel_performance, input) (invoked evs))
    /\ fst (_mock_process_query self query x s)
       = match fst (run_tool t_analyze_delivery_impact x (_TOOLS_INSTANCE s)) with
         | Return result =>
             Return (final_response "investigate delivery times" result)
         | Raise e => Raise e
         end.
Proof.
  intros Hdelivery _. rewrite mock_process_query_run.
  unfold route. rewrite Hdelivery. cbn [fst snd trace].
  eexists. split; [reflexivity|]. split; [reflexivity|].
  split; [cbn; auto 6|]. split; [|reflexivity].
  intros input [H|[H|[]]]; discriminate H.
Qed.

Lemma delivery_wins_over_channel_witness :
  fst (_mock_process_query mock_analyst
         "Does delivery affect our channel performance?" mock_world fresh)
  = Return (final_response "investigate delivery times" delivery_text).
Proof.
  destruct (delivery_wins_over_channel mock_analyst
              "Does delivery affect our channel performance?" mock_world fresh)
    as (evs & _ & _ & _ & _ & Hresponse).
  - vm_compute. reflexivity.
  - vm_compute. reflexivity.
  - rewrite Hresponse. vm_compute. reflexivity.
Defined.

(** C4.  When the lowered query contains none of the keywords of the six
    intent rules, the planner takes the default branch: the only analysis
    tool it invokes is the data-summary tool. *)
Theorem no_keyword_dispatches_summary (self : AnalystObject) (query : string)
    (x : External) (s : Session) :
  let q := lower query in
  str_in "delivery" q = false ->
  str_in "channel" q = false ->
  str_in "city" q || str_in "region" q = false ->
  str_in "gender" q || str_in "demograph" q = false ->
  str_in "visit" q || str_in "engage" q = false ->
  str_in "model" q || str_in "predict" q || str_in "driver" q = false ->
  exists evs,
    trace (snd (_mock_process_query self query x s)) = (trace s ++ evs)%list
    /\ invoked evs = [ (t_get_business_context, InputStr query);
                       (t_get_data_summary, InputDict ∅) ]
    /\ In (EvPrint "[MOCK-AGENT] Decided to call tool: get_data_summary") evs
    /\ fst (_mock_process_query self query x s)
       = match fst (run_tool t_get_data_summary x (_TOOLS_INSTANCE s)) with
         | Return result => Return (final_response "check context" result)
         | Raise e => Raise e
         end.
Proof.
  intros q H1 H2 H3 H4 H5 H6. rewrite mock_process_query_run.
  unfold route. fold q. rewrite H1, H2, H3, H4, H5, H6. cbn [fst snd trace].
  eexists. split; [reflexivity|]. split; [reflexivity|].
  split; [cbn; auto 6|reflexivity].
Qed.

Lemma no_keyword_dispatches_summary_witness :
  fst (_mock_process_query mock_analyst "Hello" mock_world fresh)
  = Return (final_response "check context"
              "Summary: 2 Customers, 50.00% Churn Rate, Total Revenue: INR 1,200").
Proof.
  destruct (no_keyword_dispatches_summary mock_analyst "Hello" mock_world fresh)
    as (evs & _ & _ & _ & Hresponse); [vm_compute; reflexivity .. |].
  rewrite Hresponse. vm_compute. reflexivity.
Defined.

(** C10.  For every query the response carries the label of the tool the
    planner dispatched: the default "check context" when that tool is the
    demographics, the engagement or the data-summary tool, whose branches
    leave the label as it was initialised, and a label other than
    "check context" when it is the delivery, channel, city or model tool.
    The label is in the text that is returned: whenever the tool returns,
    the response opens with the fixed header followed by "The user asked
    about '", the label, and "'.". *)
Theorem default_label_on_three_branches (self : AnalystObject) (query : string)
    (x : External) (s : Session) :
  let t := fst (route (lower query)) in
  let plan := snd (route (lower query)) in
  (exists evs,
      trace (snd (_mock_process_query self query x s)) = (trace s ++ evs)%list
      /\ invoked evs = [ (t_get_business_context, InputStr query);
                         (t, InputDict ∅) ])
  /\ fst (_mock_process_query self query x s)
     = match fst (run_tool t x (_TOOLS_INSTANCE s)) with
       | Return result => Return (final_response plan result)
       | Raise e => Raise e
       end
  /\ plan = plan_label t
  /\ String.eqb plan "check context" = keeps_default_label t
  /\ match fst (run_tool t x (_TOOLS_INSTANCE s)) with
     | Return result =>
         exists response,
           fst (_mock_process_query self query x s) = Return response
           /\ String.prefix
                (nl ++ "--- AGENT RESPONSE (MOCK MODE) ---" ++ nl
                 ++ "Based on the Mock Logic: The user asked about '"
                 ++ (if keeps_default_label t then "check context" else plan)
                 ++ "'." ++ nl)
                response = true
           /\ str_in ("The user asked about '" ++ plan ++ "'.") response = true
     | Raise e => fst (_mock_process_query self query x s) = Raise e
     end.
Proof.
  intros t plan. rewrite mock_process_query_run. fold t plan.
  cbn [fst snd trace].
  assert (Hdefault : String.eqb plan "check context" = keeps_default_label t).
  { subst t plan. unfold route.
    repeat match goal with
           | |- context [if ?b then _ else _] => destruct b
           end; reflexivity. }
  split; [eexists; split; reflexivity|].
  split; [reflexivity|].
  split; [apply route_label|].
  split; [exact Hdefault|].
  destruct (fst (run_tool t x (_TOOLS_INSTANCE s))) as [result|e];
    [|reflexivity].
  exists (final_response plan result). split; [reflexivity|]. split.
  - destruct (keeps_default_label t).
    + apply String.eqb_eq in Hdefault. rewrite <- Hdefault.
      apply final_response_opening.
    + apply final_response_opening.
  - apply str_in_spec.
    exists (nl ++ "--- AGENT RESPONSE (MOCK MODE) ---" ++ nl
            ++ "Based on the Mock Logic: ").
    eexists. unfold final_response.
    rewrite !app_assoc_str. reflexivity.
Qed.

(** C9.  For every query the planner first invokes the knowledge base, with
    the query as it was received, and only then announces its choice and
    invokes one analysis tool, with an empty dict of arguments.  The
    context it retrieved goes to the log line and nowhere else: the answer
    is the tool's own result in the template, and two queries that take the
    same branch get the same answer whatever contexts they retrieve. *)
Theorem context_is_retrieved_first_and_only_logged (self : AnalystObject)
    (query other : string) (x : External) (s : Session) :
  route (lower other) = route (lower query) ->
  let t := fst (route (lower query)) in
  trace (snd (_mock_process_query self query x s))
  = (trace s
     ++ [ EvPrint "[MOCK-AGENT] Consulting Knowledge Base...";
          EvInvokeTool t_get_business_context (InputStr query);
          EvPrint ("[MOCK-AGENT] Retrieved Context: "
                   ++ slice_to 50 (context_of query) ++ "...");
          EvPrint ("[MOCK-AGENT] Decided to call tool: " ++ tool_name t);
          EvInvokeTool t (InputDict ∅) ])%list
  /\ rag.get_business_context query = Return (context_of query)
  /\ t <> t_get_business_context
  /\ fst (_mock_process_query self query x s)
     = match fst (run_tool t x (_TOOLS_INSTANCE s)) with
       | Return result => Return (final_response (plan_label t) result)
       | Raise e => Raise e
       end
  /\ fst (_mock_process_query self other x s)
     = fst (_mock_process_query self query x s).
Proof.
  intros Hsame t. rewrite !mock_process_query_run, Hsame. fold t.
  cbn [fst snd trace]. rewrite route_label. fold t.
  split; [reflexivity|].
  split; [apply get_business_context_run|].
  split; [apply route_not_context|].
  split; reflexivity.
Qed.

Lemma context_is_retrieved_first_and_only_logged_witness :
  rag.get_business_context "Is delivery worth the cost?"
  <> rag.get_business_context "Does delivery time affect churn?"
  /\ fst (_mock_process_query mock_analyst "Is delivery worth the cost?"
            mock_world fresh)
     = fst (_mock_process_query mock_analyst "Does delivery time affect churn?"
              mock_world fresh).
Proof.
  split; [vm_compute; discriminate|].
  apply (context_is_retrieved_first_and_only_logged mock_analyst
           "Does delivery time affect churn?" "Is delivery worth the cost?"
           mock_world fresh).
  vm_compute. reflexivity.
Defined.

(** C8, as the code has it.  For every query the planner returns a
    complete response whenever the tool it invoked returns a text, and the
    response embeds that text; when the dataset is unavailable the tool
    returns the error description "Error: Data not loaded." rather than
    raising, so the planner still answers.  A tool that raises makes the
    planner raise the same exception. *)
Theorem planner_answers_when_tool_returns (self : AnalystObject)
    (query : string) (x : External) (s : Session) :
  let t := fst (route (lower query)) in
  let run := _mock_process_query self query x s in
  (forall result,
      fst (run_tool t x (_TOOLS_INSTANCE s)) = Return result ->
      fst run = Return (final_response (plan_label t) result)
      /\ str_in result (final_response (plan_label t) result) = true)
  /\ (dataset_unavailable x (_TOOLS_INSTANCE s) = true ->
      fst (run_tool t x (_TOOLS_INSTANCE s)) = Return "Error: Data not loaded."
      /\ fst run = Return (final_response (plan_label t) "Error: Data not loaded."))
  /\ (forall e,
      fst (run_tool t x (_TOOLS_INSTANCE s)) = Raise e -> fst run = Raise e).
Proof.
  intros t run. subst run. rewrite mock_process_query_run. fold t.
  cbn [fst]. rewrite route_label. fold t.
  split; [|split].
  - intros result ->. split; [reflexivity|apply final_response_embeds].
  - intros Hdata.
    rewrite (missing_data_is_reported t x _ (route_not_context _) Hdata).
    split; reflexivity.
  - intros e ->. reflexivity.
Qed.

Lemma planner_answers_when_tool_returns_witness :
  dataset_unavailable no_data_world (_TOOLS_INSTANCE fresh) = true
  /\ fst (_mock_process_query mock_analyst "Does delivery time affect churn?"
            no_data_world fresh)
     = Return (final_response "investigate delivery times"
                 "Error: Data not loaded.").
Proof.
  split; [vm_compute; reflexivity|].
  apply (planner_answers_when_tool_returns mock_analyst
           "Does delivery time affect churn?" no_data_world fresh).
  vm_compute. reflexivity.
Defined.

(** C8, as stated, fails: with the data loaded and the column of the
    delivery analysis missing, the tool raises [KeyError] and so does the
    planner. *)
Lemma planner_raises_when_tool_raises :
  fst (run_tool t_analyze_delivery_impact broken_column_world
         (_TOOLS_INSTANCE fresh))
  = Raise (mk_exn KeyError "'avg_delivery_days'")
  /\ fst (_mock_process_query mock_analyst "Does delivery time affect churn?"
            broken_column_world fresh)
     = Raise (mk_exn KeyError "'avg_delivery_days'").
Proof. split; vm_compute; reflexivity. Qed.

End PlannerClaims.

(** ** The router *)

Section RouterClaims.

Import ShopEaseAnalyst.

(** C2.  When [OPENAI_API_KEY] is absent, or starts with the placeholder
    prefix "paste_your", initialisation selects the mock mode, leaves
    [agent_executor] unset, and does nothing but print one line: it imports
    nothing of LangChain and constructs neither prompt, LLM, agent nor
    executor. *)
Theorem init_without_credential_is_mock (x : External) (s : Session) :
  os_getenv x "OPENAI_API_KEY" = None
  \/ (exists key, os_getenv x "OPENAI_API_KEY" = Some key
                  /\ startswith key "paste_your" = true) ->
  exists self evs,
    __init__ x s = (Return self, mk_session (trace s ++ evs) (_TOOLS_INSTANCE s))
    /\ use_mock self = true
    /\ agent_executor self = None
    /\ constructions evs = []
    /\ evs = [ EvPrint "[SYSTEM] No valid OPENAI_API_KEY found. Switching to MOCK AGENT mode." ].
Proof.
  intros Hkey. exists mock_analyst.
  exists [ EvPrint "[SYSTEM] No valid OPENAI_API_KEY found. Switching to MOCK AGENT mode." ].
  split; [|repeat split].
  unfold __init__, bind at 1, call.
  destruct Hkey as [-> | (key & -> & Hprefix)].
  - reflexivity.
  - cbn [from_option]. rewrite Hprefix, orb_true_r. reflexivity.
Qed.

Lemma init_without_credential_is_mock_witness :
  (exists self s', __init__ mock_world fresh = (Return self, s')
                   /\ use_mock self = true /\ agent_executor self = None)
  /\ (exists self s', __init__ placeholder_world fresh = (Return self, s')
                      /\ use_mock self = true /\ agent_executor self = None).
Proof.
  split.
  - destruct (init_without_credential_is_mock mock_world fresh)
      as (self & evs & Hrun & Hmock & Hexec & _).
    + left. reflexivity.
    + exists self. eexists. split; [exact Hrun|]. split; assumption.
  - destruct (init_without_credential_is_mock placeholder_world fresh)
      as (self & evs & Hrun & Hmock & Hexec & _).
    + right. exists "paste_your_key_here". split; reflexivity.
    + exists self. eexists. split; [exact Hrun|]. split; assumption.
Defined.

(** C1, as the code has it.  In Primary mode, when the executor's [invoke]
    raises [e]: if [e] is an instance of [Exception], [process_query] logs
    it and does exactly what the rule-based planner does on the query;
    when the tool the planner invokes returns a text, [process_query]
    returns the planner's response, made of the plan label and that text,
    and [e] does not reach the caller; when that tool itself raises, its
    exception is what [process_query] raises.  If [e] is outside
    [Exception] ([KeyboardInterrupt], [SystemExit], [GeneratorExit]) no
    clause catches it and [e] is raised to the caller. *)
Theorem primary_failure_falls_back (self : AnalystObject)
    (executor : ExecutorObject) (query : string) (x : External)
    (s s1 : Session) (e : exn) :
  use_mock self = false ->
  agent_executor self = Some executor ->
  executor_invoke x executor {[ "input" := query ]}
    (mk_session
       (trace s ++ [ EvPrint (nl ++ "[AGENT] Received Query: '" ++ query ++ "'");
                     EvInvokeExecutor {[ "input" := query ]} ])
       (_TOOLS_INSTANCE s))
  = (Raise e, s1) ->
  let t := fst (route (lower query)) in
  (process_query self query x s
   = if is_Exception (exn_cls e) then
       _mock_process_query self query x
         (mk_session
            (trace s1 ++ [ EvPrint ("[ERROR] LangChain execution failed: "
                                    ++ exn_str e ++ ". Falling back to Mock.") ])
            (_TOOLS_INSTANCE s1))
     else (Raise e, s1))
  /\ fst (process_query self query x s)
     = (if is_Exception (exn_cls e) then
          match fst (run_tool t x (_TOOLS_INSTANCE s1)) with
          | Return result => Return (final_response (plan_label t) result)
          | Raise tool_error => Raise tool_error
          end
        else Raise e)
  /\ (is_Exception (exn_cls e) = true ->
      forall result,
        fst (run_tool t x (_TOOLS_INSTANCE s1)) = Return result ->
        fst (process_query self query x s)
        = Return (final_response (plan_label t) result)
        /\ str_in (plan_label t) (final_response (plan_label t) result) = true
        /\ str_in result (final_response (plan_label t) result) = true
        /\ str_in recommendation (final_response (plan_label t) result) = true).
Proof.
  intros Hmock Hexec Hinvoke t.
  assert (Hrun : process_query self query x s
                 = if is_Exception (exn_cls e) then
                     _mock_process_query self query x
                       (mk_session
                          (trace s1
                           ++ [ EvPrint ("[ERROR] LangChain execution failed: "
                                         ++ exn_str e
                                         ++ ". Falling back to Mock.") ])
                          (_TOOLS_INSTANCE s1))
                   else (Raise e, s1)).
  { unfold process_query. rewrite Hmock.
    unfold bind at 1, print at 1, emit at 1.
    unfold try_except, get_agent_executor. rewrite Hexec.
    unfold bind at 1, lift at 1.
    unfold bind at 1, invoke_executor, bind at 1, emit at 1.
    cbn [trace _TOOLS_INSTANCE]. rewrite <- app_assoc. cbn [app].
    rewrite Hinvoke. cbn [find_handler].
    destruct (is_Exception (exn_cls e)); reflexivity. }
  assert (Hfst : fst (process_query self query x s)
                 = if is_Exception (exn_cls e) then
                     match fst (run_tool t x (_TOOLS_INSTANCE s1)) with
                     | Return result =>
                         Return (final_response (plan_label t) result)
                     | Raise tool_error => Raise tool_error
                     end
                   else Raise e).
  { rewrite Hrun. destruct (is_Exception (exn_cls e)); [|reflexivity].
    rewrite mock_process_query_run. fold t. cbn [fst _TOOLS_INSTANCE].
    rewrite route_label. reflexivity. }
  split; [exact Hrun|]. split; [exact Hfst|].
  intros He result Htool. rewrite Hfst, He, Htool.
  split; [reflexivity|apply final_response_embeds].
Qed.

Lemma primary_failure_falls_back_witness :
  fst (process_query primary_analyst "Does delivery time affect churn?"
         llm_down_world fresh)
  = Return (final_response "investigate delivery times" delivery_text).
Proof.
  destruct (primary_failure_falls_back primary_analyst
              (mk_executor all_tools true)
              "Does delivery time affect churn?" llm_down_world fresh
              (mk_session
                 [ EvPrint (nl ++ "[AGENT] Received Query: 'Does delivery time affect churn?'");
                   EvInvokeExecutor {[ "input" := "Does delivery time affect churn?" ]} ]
                 None)
              (mk_exn (Other "APIConnectionError" Exception) "Connection error."))
    as (_ & _ & Hreturns); [reflexivity .. |].
  destruct (Hreturns eq_refl delivery_text) as [Hresponse _];
    [vm_compute; reflexivity|].
  rewrite Hresponse. vm_compute. reflexivity.
Defined.

(** C1, as stated, fails: a [KeyboardInterrupt] raised while the executor
    runs is not an [Exception]; [process_query] does not fall back and the
    interrupt reaches the caller. *)
Lemma keyboard_interrupt_escapes_process_query :
  use_mock primary_analyst = false
  /\ fst (executor_invoke interrupted_world (mk_executor all_tools true)
            {[ "input" := "Does delivery time affect churn?" ]} fresh)
     = Raise (mk_exn KeyboardInterrupt EmptyString)
  /\ fst (process_query primary_analyst "Does delivery time affect churn?"
            interrupted_world fresh)
     = Raise (mk_exn KeyboardInterrupt EmptyString).
Proof. repeat split; vm_compute; reflexivity. Qed.

End RouterClaims.

(** * Further properties of the code *)

(** ** Lowering and substrings *)

Section CaseFacts.

Lemma lower_char_idempotent (c : ascii) : lower_char (lower_char c) = lower_char c.
Proof.
  destruct c as [[] [] [] [] [] [] [] []]; vm_compute; reflexivity.
Qed.

Lemma lower_idempotent (s : string) : lower (lower s) = lower s.
Proof.
  induction s as [|c s IH]; cbn [lower]; [reflexivity|].
  now rewrite lower_char_idempotent, IH.
Qed.

Lemma lower_app (a b : string) : lower (a ++ b) = lower a ++ lower b.
Proof.
  induction a as [|c a IH]; cbn [lower append]; [reflexivity|].
  now rewrite IH.
Qed.

Lemma str_in_trans (a b c : string) :
  str_in a b = true -> str_in b c = true -> str_in a c = true.
Proof.
  intros Hab Hbc.
  apply str_in_spec in Hab as (p & q & ->).
  apply str_in_spec in Hbc as (p' & q' & ->).
  apply str_in_spec. exists (p' ++ p), (q ++ q').
  now rewrite !app_assoc_str.
Qed.

(** A keyword found in a text is found in any text built around it. *)
Lemma str_in_wrap (sub before s after : string) :
  str_in sub s = true -> str_in sub (before ++ s ++ after) = true.
Proof.
  intros H. apply (str_in_trans sub s); [exact H | apply str_in_app].
Qed.

End CaseFacts.

(** ** rag.py: retrieval over any knowledge base *)

Section RetrievalExtras.

Import BusinessKnowledgeBase.

(** X1.  Retrieval does not see letter case: a query and its lowered form
    retrieve the same context, from any knowledge base. *)
Theorem retrieval_ignores_case (self : t) (query : string) :
  retrieve_context self (lower query) = retrieve_context self query.
Proof.
  unfold retrieve_context, relevant_docs. rewrite lower_idempotent.
  reflexivity.
Qed.

(** X2.  Over any knowledge base that holds the four documents, retrieval
    returns: at least one document, at most three, each of them a document
    of that knowledge base. *)
Theorem retrieval_returns_held_documents (self : t) (query : string) :
  has_all_documents self ->
  exists docs,
    relevant_docs self query = Return docs
    /\ retrieve_context self query = Return (join nl docs)
    /\ (1 <= length docs <= 3)%nat
    /\ forall d, In d docs ->
         exists key, In key document_keys /\ documents self !! key = Some d.
Proof.
  intros Hall.
  destruct (Hall "background") as [db Hb]; [cbn; auto|].
  destruct (Hall "problem") as [dp Hp]; [cbn; auto|].
  destruct (Hall "hypotheses") as [dh Hh]; [cbn; auto|].
  destruct (Hall "constraints") as [dc Hc]; [cbn; auto 6|].
  unfold retrieve_context, relevant_docs, append_if, getitem.
  rewrite Hb, Hp, Hh, Hc.
  destruct (_ || _ : bool), (_ || _ || _ : bool), (_ || _ : bool);
    cbn [outcome_bind app]; eexists;
    (split; [reflexivity|]); (split; [reflexivity|]);
    (split; [cbn; lia|]);
    intros d Hd; cbn in Hd;
    repeat (destruct Hd as [<-|Hd];
            [eexists; split; [|eassumption]; cbn; auto 6|]);
    destruct Hd.
Qed.

Lemma retrieval_returns_held_documents_witness :
  exists docs,
    relevant_docs _RAG_INSTANCE "discount or budget?" = Return docs
    /\ (1 <= length docs <= 3)%nat.
Proof.
  destruct (retrieval_returns_held_documents _RAG_INSTANCE "discount or budget?")
    as (docs & Hdocs & _ & Hlen & _).
  - intros key Hkey. cbn in Hkey.
    repeat (destruct Hkey as [<-|Hkey]; [vm_compute; eauto|]).
    destruct Hkey.
  - exists docs. split; assumption.
Defined.

(** X3.  Retrieval raises only for a missing document: the exception is a
    [KeyError], and the knowledge base holds nothing under one of the four
    keys. *)
Theorem retrieval_raises_only_key_error (self : t) (query : string) (e : exn) :
  retrieve_context self query = Raise e ->
  exn_cls e = KeyError
  /\ exists key, In key document_keys /\ documents self !! key = None.
Proof.
  unfold retrieve_context, relevant_docs, append_if, getitem.
  destruct (_ || _ : bool), (_ || _ || _ : bool), (_ || _ : bool);
    destruct (documents self !! "problem") eqn:Hp;
    destruct (documents self !! "hypotheses") eqn:Hh;
    destruct (documents self !! "constraints") eqn:Hc;
    destruct (documents self !! "background") eqn:Hb;
    cbn [outcome_bind app]; intros [= <-];
    cbn [exn_cls]; (split; [reflexivity|]);
    eexists; (split; [|eassumption]); cbn; auto 6.
Qed.

Lemma retrieval_raises_only_key_error_witness :
  exn_cls (mk_exn KeyError "'background'") = KeyError
  /\ exists key, In key document_keys /\ documents empty_kb !! key = None.
Proof.
  apply (retrieval_raises_only_key_error empty_kb "Hello").
  vm_compute. reflexivity.
Defined.

Lemma in_matched_docs (q d : string) :
  In d (matched_docs q) <->
  (d = problem_text /\ rule_problem q = true)
  \/ (d = hypotheses_text /\ rule_hypotheses q = true)
  \/ (d = constraints_text /\ rule_constraints q = true).
Proof.
  unfold matched_docs.
  destruct (rule_problem q), (rule_hypotheses q), (rule_constraints q);
    cbn; intuition (try discriminate; try congruence).
Qed.

Lemma texts_differ :
  NoDup [ background_text; problem_text; hypotheses_text; constraints_text ].
Proof. apply (bool_decide_unpack _). vm_compute. exact I. Qed.

(** X4.  From the program's knowledge base no document comes back twice,
    and the background document is the default only: it is returned exactly
    when no keyword rule matches, and then it is returned alone. *)
Theorem background_is_returned_alone (query : string) :
  exists docs,
    relevant_docs _RAG_INSTANCE query = Return docs
    /\ NoDup docs
    /\ (In background_text docs <->
        rule_problem (lower query) = false
        /\ rule_hypotheses (lower query) = false
        /\ rule_constraints (lower query) = false)
    /\ (In background_text docs -> docs = [background_text]).
Proof.
  rewrite relevant_docs_run. eexists. split; [reflexivity|].
  pose proof texts_differ as Hnd.
  unfold matched_docs.
  destruct (rule_problem (lower query)), (rule_hypotheses (lower query)),
           (rule_constraints (lower query)); cbn [app].
  all: split; [apply (bool_decide_unpack _); vm_compute; exact I|].
  all: split; [|cbn; intros H;
                try reflexivity;
                exfalso; revert H;
                apply (bool_decide_unpack _); vm_compute; exact I].
  all: split; [|intros (H1 & H2 & H3); try discriminate; cbn; auto].
  all: intros H; try (repeat split; reflexivity).
  all: exfalso; revert H; apply (bool_decide_unpack _); vm_compute; exact I.
Qed.

Lemma join_contains (sep d : string) (docs : list string) :
  In d docs -> str_in d (join sep docs) = true.
Proof.
  unfold join. induction docs as [|d0 docs IH]; intros Hin; [destruct Hin|].
  destruct docs as [|d1 docs].
  - destruct Hin as [->|[]]. cbn [concat].
    apply str_in_spec. exists EmptyString, EmptyString.
    cbn [append]. clear. induction d as [|c d IHd]; cbn [append];
      [reflexivity | now rewrite <- IHd].
  - cbn [concat]. destruct Hin as [->|Hin].
    + apply str_in_here.
    + apply str_in_skip, str_in_skip, IH, Hin.
Qed.

(** X5.  Whatever the knowledge base, the text of every document that was
    selected occurs in the context string that is returned. *)
Theorem selected_documents_occur_in_context (self : t) (query d : string)
    (docs : list string) :
  relevant_docs self query = Return docs ->
  In d docs ->
  exists context,
    retrieve_context self query = Return context
    /\ str_in d context = true.
Proof.
  intros Hdocs Hin. unfold retrieve_context. rewrite Hdocs.
  eexists. split; [reflexivity|]. apply join_contains, Hin.
Qed.

Lemma selected_documents_occur_in_context_witness :
  exists context,
    retrieve_context _RAG_INSTANCE "why the discount budget?" = Return context
    /\ str_in constraints_text context = true.
Proof.
  apply (selected_documents_occur_in_context _RAG_INSTANCE
           "why the discount budget?" constraints_text
           [hypotheses_text; constraints_text]).
  - vm_compute. reflexivity.
  - cbn. auto.
Defined.

Lemma rule_problem_wrap (before q after : string) :
  rule_problem (lower q) = true ->
  rule_problem (lower (before ++ q ++ after)) = true.
Proof.
  unfold rule_problem. rewrite !lower_app, !orb_true_iff.
  intros [H|H]; [left|right]; now apply str_in_wrap.
Qed.

Lemma rule_hypotheses_wrap (before q after : string) :
  rule_hypotheses (lower q) = true ->
  rule_hypotheses (lower (before ++ q ++ after)) = true.
Proof.
  unfold rule_hypotheses. rewrite !lower_app, !orb_true_iff.
  intros [[H|H]|H]; [left; left|left; right|right]; now apply str_in_wrap.
Qed.

Lemma rule_constraints_wrap (before q after : string) :
  rule_constraints (lower q) = true ->
  rule_constraints (lower (before ++ q ++ after)) = true.
Proof.
  unfold rule_constraints. rewrite !lower_app, !orb_true_iff.
  intros [H|H]; [left|right]; now apply str_in_wrap.
Qed.

(** X6.  Text added around a query never loses a retrieved document: a
    document other than the default background that is retrieved for a
    query is retrieved for every query that contains it. *)
Theorem retrieval_is_monotone (before query after d : string)
    (docs : list string) :
  relevant_docs _RAG_INSTANCE query = Return docs ->
  In d docs ->
  d <> background_text ->
  exists docs',
    relevant_docs _RAG_INSTANCE (before ++ query ++ after) = Return docs'
    /\ In d docs'.
Proof.
  rewrite !relevant_docs_run. intros [= <-] Hin Hnot.
  assert (Hd : In d (matched_docs (lower query))).
  { destruct (matched_docs (lower query)); [|exact Hin].
    destruct Hin as [<-|[]]. now elim Hnot. }
  assert (Hd' : In d (matched_docs (lower (before ++ query ++ after)))).
  { apply in_matched_docs. apply in_matched_docs in Hd.
    destruct Hd as [[-> H]|[[-> H]|[-> H]]].
    - left. split; [reflexivity|now apply rule_problem_wrap].
    - right; left. split; [reflexivity|now apply rule_hypotheses_wrap].
    - right; right. split; [reflexivity|now apply rule_constraints_wrap]. }
  eexists. split; [reflexivity|].
  destruct (matched_docs (lower (before ++ query ++ after)));
    [destruct Hd'|exact Hd'].
Qed.

Lemma retrieval_is_monotone_witness :
  exists docs',
    relevant_docs _RAG_INSTANCE ("Tell me: " ++ "any COST limits" ++ ", please")
    = Return docs'
    /\ In constraints_text docs'.
Proof.
  apply (retrieval_is_monotone "Tell me: " "any COST limits" ", please"
           constraints_text [constraints_text]).
  - vm_compute. reflexivity.
  - cbn. auto.
  - vm_compute. discriminate.
Defined.

End RetrievalExtras.

(** ** tools.py: loading, the singleton and the guards *)

Section ToolsExtras.


(** What [get_tools_instance] does, case by case. *)
Lemma get_tools_instance_run (x : External) (s : Session) :
  tools.get_tools_instance x s =
  match _TOOLS_INSTANCE s with
  | Some inst => (Return inst, s)
  | None =>
      match ensure_dir x (default_plot_dir x) with
      | Raise e => (Raise e, s)
      | Return _ =>
          match read_and_merge x (default_data_dir x) with
          | Return merged =>
              let inst := mk_tools (default_data_dir x) (default_plot_dir x)
                            (Some merged) in
              (Return inst, mk_session (trace s) (Some inst))
          | Raise e =>
              if is_Exception (exn_cls e) then
                let inst := mk_tools (default_data_dir x) (default_plot_dir x)
                              None in
                (Return inst, mk_session (trace s) (Some inst))
              else (Raise e, s)
          end
      end
  end.
Proof.
  destruct s as [tr [inst|]]; [reflexivity|].
  cbv [tools.get_tools_instance DataAnalystTools.__init__
       DataAnalystTools.load_data try_except bind ret call
       get_TOOLS_INSTANCE set_TOOLS_INSTANCE truthy _TOOLS_INSTANCE
       trace data_dir default_plot_dir default_data_dir].
  destruct (ensure_dir x _) as [[]|e]; [|reflexivity].
  destruct (read_and_merge x _) as [merged|e]; [reflexivity|].
  cbn [find_handler]. destruct (is_Exception (exn_cls e)); reflexivity.
Qed.

(** X9.  [get_tools_instance] is a singleton: once a call has returned an
    object, that object is held in [_TOOLS_INSTANCE], and every later call,
    whatever has become of the outside world, returns the same object and
    changes nothing (the data is not read again). *)
Theorem tools_instance_is_built_once (x x' : External) (s s' : Session)
    (inst : ToolsObject) :
  tools.get_tools_instance x s = (Return inst, s') ->
  _TOOLS_INSTANCE s' = Some inst
  /\ trace s' = trace s
  /\ tools.get_tools_instance x' s' = (Return inst, s').
Proof.
  rewrite get_tools_instance_run. intros Hrun.
  assert (Hheld : _TOOLS_INSTANCE s' = Some inst /\ trace s' = trace s).
  { destruct (_TOOLS_INSTANCE s) as [held|] eqn:Hs.
    - injection Hrun as <- <-. now split.
    - destruct (ensure_dir x _) as [[]|e]; [|discriminate].
      destruct (read_and_merge x _) as [merged|e].
      + injection Hrun as <- <-. now split.
      + destruct (is_Exception (exn_cls e)); [|discriminate].
        injection Hrun as <- <-. now split. }
  destruct Hheld as [Hheld Htrace]. repeat split; try assumption.
  rewrite get_tools_instance_run, Hheld. reflexivity.
Qed.

Lemma tools_instance_is_built_once_witness :
  exists inst s',
    tools.get_tools_instance mock_world fresh = (Return inst, s')
    /\ tools.get_tools_instance no_data_world s' = (Return inst, s')
    /\ df inst = Some sample_frame.
Proof.
  exists (mk_tools "/app/data/" "/app/plots/" (Some sample_frame)).
  exists (mk_session []
            (Some (mk_tools "/app/data/" "/app/plots/" (Some sample_frame)))).
  assert (H : tools.get_tools_instance mock_world fresh
              = (Return (mk_tools "/app/data/" "/app/plots/" (Some sample_frame)),
                 mk_session []
                   (Some (mk_tools "/app/data/" "/app/plots/"
                            (Some sample_frame)))))
    by (vm_compute; reflexivity).
  split; [exact H|]. split; [|reflexivity].
  exact (proj2 (proj2 (tools_instance_is_built_once mock_world no_data_world
                         _ _ _ H))).
Defined.

(** An analysis tool: fetch the singleton, then run the guarded analysis,
    whatever the input. *)
Lemma analysis_tool_run (t : tool_id) (input : tool_input)
    (x : External) (s : Session) :
  t <> t_get_business_context ->
  tool_function t input x s =
  match tools.get_tools_instance x s with
  | (Return inst, s') => (analysis_of t x inst, s')
  | (Raise e, s') => (Raise e, s')
  end.
Proof.
  intros Ht.
  destruct t; try congruence; cbn [tool_function];
    unfold tools.get_data_summary, tools.analyze_delivery_impact,
      tools.analyze_channel_performance, tools.analyze_city_performance,
      tools.analyze_demographics, tools.analyze_engagement,
      tools.train_predictive_model, bind;
    destruct (tools.get_tools_instance x s) as [[inst|e] s']; try reflexivity;
    unfold analysis_of, DataAnalystTools.get_summary_stats,
      DataAnalystTools.analyze_delivery_impact,
      DataAnalystTools.analyze_channels, DataAnalystTools.analyze_city_impact,
      DataAnalystTools.analyze_demographics,
      DataAnalystTools.analyze_engagement, DataAnalystTools.train_model;
    destruct (df inst); reflexivity.
Qed.

(** What [DataAnalystTools.__init__] does, case by case. *)
Lemma tools_init_run (data_arg plot_arg : option string) (x : External)
    (s : Session) :
  DataAnalystTools.__init__ data_arg plot_arg x s =
  let dd := if truthy data_arg then default EmptyString data_arg
            else default_data_dir x in
  let pd := if truthy plot_arg then default EmptyString plot_arg
            else default_plot_dir x in
  match ensure_dir x pd with
  | Raise e => (Raise e, s)
  | Return _ =>
      match read_and_merge x dd with
      | Return merged => (Return (mk_tools dd pd (Some merged)), s)
      | Raise e =>
          if is_Exception (exn_cls e) then (Return (mk_tools dd pd None), s)
          else (Raise e, s)
      end
  end.
Proof.
  cbv [DataAnalystTools.__init__ DataAnalystTools.load_data try_except bind
       ret call default_plot_dir default_data_dir].
  destruct (ensure_dir x _) as [[]|e]; [|reflexivity].
  cbn [data_dir].
  destruct (read_and_merge x _) as [merged|e]; [reflexivity|].
  cbn [find_handler]. destruct (is_Exception (exn_cls e)); reflexivity.
Qed.

(** X8.  A tools object is built only once its plot directory is ensured,
    and building it leaves the session alone.  A directory argument that is
    [None] or the empty string is replaced by the default under the base
    directory; any other is taken as given.  The object holds the merged
    table when loading returned it, and no table when loading raised. *)
Theorem tools_object_after_init (data_arg plot_arg : option string)
    (x : External) (s s' : Session) (inst : ToolsObject) :
  DataAnalystTools.__init__ data_arg plot_arg x s = (Return inst, s') ->
  s' = s
  /\ ensure_dir x (plot_dir inst) = Return tt
  /\ data_dir inst = match data_arg with
                     | Some (String c d) => String c d
                     | Some EmptyString | None => default_data_dir x
                     end
  /\ plot_dir inst = match plot_arg with
                     | Some (String c d) => String c d
                     | Some EmptyString | None => default_plot_dir x
                     end
  /\ match df inst with
     | Some merged => read_and_merge x (data_dir inst) = Return merged
     | None => exists e, read_and_merge x (data_dir inst) = Raise e
                         /\ is_Exception (exn_cls e) = true
     end.
Proof.
  rewrite tools_init_run. cbv zeta.
  set (dd := if truthy data_arg then _ else _).
  set (pd := if truthy plot_arg then _ else _).
  assert (Hdd : dd = match data_arg with
                     | Some (String c d) => String c d
                     | Some EmptyString | None => default_data_dir x
                     end)
    by (subst dd; destruct data_arg as [[|c d]|]; reflexivity).
  assert (Hpd : pd = match plot_arg with
                     | Some (String c d) => String c d
                     | Some EmptyString | None => default_plot_dir x
                     end)
    by (subst pd; destruct plot_arg as [[|c d]|]; reflexivity).
  clearbody dd pd.
  destruct (ensure_dir x pd) as [[]|e] eqn:Hdir; [|discriminate].
  destruct (read_and_merge x dd) as [merged|e] eqn:Hload.
  - intros [= <- <-]. cbn [data_dir plot_dir df]. repeat split; assumption.
  - destruct (is_Exception (exn_cls e)) eqn:He; [|discriminate].
    intros [= <- <-]. cbn [data_dir plot_dir df].
    repeat split; try assumption. exists e. now split.
Qed.

Lemma tools_object_after_init_witness :
  exists inst,
    DataAnalystTools.__init__ (Some EmptyString) (Some "/tmp/plots/")
      mock_world fresh = (Return inst, fresh)
    /\ data_dir inst = "/app/data/"
    /\ plot_dir inst = "/tmp/plots/".
Proof.
  assert (H : DataAnalystTools.__init__ (Some EmptyString) (Some "/tmp/plots/")
                mock_world fresh
              = (Return (mk_tools "/app/data/" "/tmp/plots/" (Some sample_frame)),
                 fresh))
    by (vm_compute; reflexivity).
  eexists. split; [exact H|].
  destruct (tools_object_after_init _ _ _ _ _ _ H) as (_ & _ & Hd & Hp & _).
  split; [exact Hd | exact Hp].
Defined.

(** X10.  A load that failed is never retried.  When the first analysis
    call of a process finds the dataset unavailable, it answers "Error:
    Data not loaded.", and so does every later analysis call, whatever the
    outside world has become: the object without a table stays in
    [_TOOLS_INSTANCE]. *)
Theorem failed_load_is_never_retried (t t' : tool_id) (x x' : External)
    (s : Session) :
  t <> t_get_business_context ->
  t' <> t_get_business_context ->
  _TOOLS_INSTANCE s = None ->
  dataset_unavailable x None = true ->
  let s1 := snd (tool_function t (InputDict ∅) x s) in
  fst (tool_function t (InputDict ∅) x s) = Return "Error: Data not loaded."
  /\ tool_function t' (InputDict ∅) x' s1
     = (Return "Error: Data not loaded.", s1).
Proof.
  intros Ht Ht' Hnone Hdata s1. subst s1.
  rewrite !(analysis_tool_run t), !(analysis_tool_run t') by assumption.
  rewrite (get_tools_instance_run x s), Hnone.
  unfold dataset_unavailable in Hdata.
  fold (default_plot_dir x) (default_data_dir x) in Hdata.
  destruct (ensure_dir x _) as [[]|e]; [|discriminate].
  destruct (read_and_merge x _) as [merged|e]; [discriminate|].
  rewrite Hdata. cbn [fst snd].
  split; [reflexivity|].
  rewrite get_tools_instance_run. reflexivity.
Qed.

Lemma failed_load_is_never_retried_witness :
  let s1 := snd (tool_function t_get_data_summary (InputDict ∅)
                   no_data_world fresh) in
  fst (tool_function t_analyze_engagement (InputDict ∅) mock_world s1)
  = Return "Error: Data not loaded.".
Proof.
  intros s1.
  destruct (failed_load_is_never_retried t_get_data_summary
              t_analyze_engagement no_data_world mock_world fresh)
    as [_ H]; [discriminate | discriminate | reflexivity
               | vm_compute; reflexivity |].
  fold s1 in H. rewrite H. reflexivity.
Defined.

(** X11.  A tools object that could not be built is not kept.  When there
    is no object yet and the plot directory cannot be created, an analysis
    tool raises that very exception and the session is as before, so the
    next call starts over. *)
Theorem failed_makedirs_is_raised (t : tool_id) (x : External) (s : Session)
    (e : exn) :
  t <> t_get_business_context ->
  _TOOLS_INSTANCE s = None ->
  ensure_dir x (default_plot_dir x) = Raise e ->
  tool_function t (InputDict ∅) x s = (Raise e, s).
Proof.
  intros Ht Hnone Hdir.
  rewrite analysis_tool_run, get_tools_instance_run, Hnone, Hdir by assumption.
  reflexivity.
Qed.

Lemma failed_makedirs_is_raised_witness :
  tool_function t_analyze_channel_performance (InputDict ∅)
    read_only_world fresh
  = (Raise (mk_exn (Other "PermissionError" OSError)
              "[Errno 13] Permission denied: '/app/plots/'"),
     fresh).
Proof.
  apply failed_makedirs_is_raised; [discriminate | reflexivity | reflexivity].
Defined.

(** X12.  The tools never print, and once a tools object is held no tool
    call, of any tool on any input, changes the session at all: the object
    and its table stay as they are. *)
Theorem tools_keep_the_session (t : tool_id) (input : tool_input)
    (x : External) (s : Session) :
  trace (snd (tool_function t input x s)) = trace s
  /\ match _TOOLS_INSTANCE s with
     | Some _ => snd (tool_function t input x s) = s
     | None => True
     end.
Proof.
  split.
  - destruct s as [tr inst]. rewrite framed_tool_function. reflexivity.
  - destruct (_TOOLS_INSTANCE s) as [inst|] eqn:Hs; [|exact I].
    destruct t;
      [ destruct input as [q|d]; cbn [tool_function];
        [|destruct (d !! "query")]; reflexivity
      | rewrite analysis_tool_run, get_tools_instance_run, Hs by discriminate;
        reflexivity .. ].
Qed.

End ToolsExtras.

(** ** agent.py: mode selection *)

Section InitExtras.

Import ShopEaseAnalyst.

Lemma ImportError_is_Exception (c : exn_class) :
  is_ImportError c = true -> is_Exception c = true.
Proof. induction c; cbn; auto; discriminate. Qed.

(** What [__init__] does, case by case. *)
Lemma init_run (x : External) (s : Session) :
  __init__ x s =
  if usable_key (os_getenv x "OPENAI_API_KEY") then
    let r := run_steps (construction_steps x) in
    match snd r with
    | None =>
        (Return primary_analyst,
         mk_session (trace s ++ fst r) (_TOOLS_INSTANCE s))
    | Some e =>
        if is_ImportError (exn_cls e) then
          (Return mock_analyst,
           mk_session
             (trace s ++ fst r
              ++ [ EvPrint "[SYSTEM] LangChain version incompatible. Switching to MOCK AGENT mode." ])
             (_TOOLS_INSTANCE s))
        else if is_Exception (exn_cls e) then
          (Return mock_analyst,
           mk_session
             (trace s ++ fst r
              ++ [ EvPrint ("[SYSTEM] Error initializing OpenAI Agent: "
                            ++ exn_str e
                            ++ ". Switching to MOCK AGENT mode.") ])
             (_TOOLS_INSTANCE s))
        else (Raise e, mk_session (trace s ++ fst r) (_TOOLS_INSTANCE s))
    end
  else
    (Return mock_analyst,
     mk_session
       (trace s
        ++ [ EvPrint "[SYSTEM] No valid OPENAI_API_KEY found. Switching to MOCK AGENT mode." ])
       (_TOOLS_INSTANCE s)).
Proof.
  unfold __init__, bind at 1, call.
  destruct (os_getenv x "OPENAI_API_KEY") as [key|]; [|reflexivity].
  cbn [truthy from_option usable_key].
  destruct (String.eqb key EmptyString); [reflexivity|].
  cbn [negb orb andb]. unfold startswith.
  destruct (String.prefix "paste_your" key); [reflexivity|].
  cbn [negb].
  unfold construction_steps, try_except, bind, emit, call, print, ret.
  cbn [trace _TOOLS_INSTANCE run_steps].
  destruct (import_langchain_agents x) as [[]|e1];
    [destruct (new_ChatPromptTemplate x) as [[]|e2];
     [destruct (new_ChatOpenAI x) as [[]|e3];
      [destruct (new_openai_tools_agent x) as [[]|e4];
       [destruct (new_AgentExecutor x) as [[]|e5]|]|]|]|];
    cbn [fst snd find_handler];
    try match goal with
        | |- context [is_ImportError (exn_cls ?e)] =>
            destruct (is_ImportError (exn_cls e));
            [|destruct (is_Exception (exn_cls e))]
        end;
    cbn [trace _TOOLS_INSTANCE emit];
    rewrite <- ?app_assoc; reflexivity.
Qed.

Lemma construction_events_are_quiet (x : External) :
  invoked (fst (run_steps (construction_steps x))) = []
  /\ executor_calls (fst (run_steps (construction_steps x))) = []
  /\ printed (fst (run_steps (construction_steps x))) = [].
Proof.
  unfold construction_steps. cbn [run_steps].
  destruct (import_langchain_agents x) as [[]|e1];
    [destruct (new_ChatPromptTemplate x) as [[]|e2];
     [destruct (new_ChatOpenAI x) as [[]|e3];
      [destruct (new_openai_tools_agent x) as [[]|e4];
       [destruct (new_AgentExecutor x) as [[]|e5]|]|]|]|];
    repeat split.
Qed.

Lemma quiet_app (evs evs' : list event) :
  invoked (evs ++ evs') = (invoked evs ++ invoked evs')%list
  /\ executor_calls (evs ++ evs')
     = (executor_calls evs ++ executor_calls evs')%list
  /\ printed (evs ++ evs') = (printed evs ++ printed evs')%list.
Proof.
  induction evs as [|[] evs (IH1 & IH2 & IH3)]; cbn;
    rewrite ?IH1, ?IH2, ?IH3; repeat split.
Qed.

(** X13.  [__init__] never raises an [Exception].  The agent it returns
    holds the eight tools and is either the mock agent, with no executor,
    or the primary agent, with an executor over the eight tools.  Building
    the agent invokes no tool and no executor, and does not load the data:
    [_TOOLS_INSTANCE] is as before. *)
Theorem init_builds_a_consistent_agent (x : External) (s : Session) :
  match __init__ x s with
  | (Return self, s') =>
      analyst_tools self = all_tools
      /\ (self = mock_analyst \/ self = primary_analyst)
      /\ _TOOLS_INSTANCE s' = _TOOLS_INSTANCE s
      /\ exists evs, trace s' = (trace s ++ evs)%list
                     /\ invoked evs = [] /\ executor_calls evs = []
  | (Raise e, s') =>
      is_Exception (exn_cls e) = false
      /\ _TOOLS_INSTANCE s' = _TOOLS_INSTANCE s
  end.
Proof.
  rewrite init_run.
  destruct (construction_events_are_quiet x) as (Hi & Hx & _).
  destruct (usable_key _).
  - cbv zeta. destruct (snd (run_steps (construction_steps x))) as [e|].
    + destruct (is_ImportError (exn_cls e));
        [|destruct (is_Exception (exn_cls e)) eqn:He].
      * repeat split; [now left|]. eexists. split; [reflexivity|].
        destruct (quiet_app (fst (run_steps (construction_steps x)))
                    [EvPrint "[SYSTEM] LangChain version incompatible. Switching to MOCK AGENT mode."])
          as (-> & -> & _).
        rewrite Hi, Hx. split; reflexivity.
      * repeat split; [now left|]. eexists. split; [reflexivity|].
        match goal with
        | |- invoked (_ ++ ?l) = _ /\ _ =>
            destruct (quiet_app (fst (run_steps (construction_steps x))) l)
              as (-> & -> & _)
        end.
        rewrite Hi, Hx. split; reflexivity.
      * split; [assumption|reflexivity].
    + repeat split; [now right|]. eexists. split; [reflexivity|].
      split; assumption.
  - repeat split; [now left|]. eexists. split; [reflexivity|].
    split; reflexivity.
Qed.

Lemma run_steps_all_return (steps : list (event * outcome unit)) :
  snd (run_steps steps) = None <->
  Forall (fun step => snd step = Return tt) steps.
Proof.
  induction steps as [|[ev [[]|e]] steps IH]; cbn [run_steps snd].
  - split; [constructor|reflexivity].
  - rewrite IH. split; [intros H; constructor; [reflexivity|exact H]|].
    intros H. now inversion H.
  - split; [discriminate|]. intros H. inversion H. discriminate.
Qed.

(** X14.  [__init__] returns the primary agent exactly when the credential
    is usable (set, not empty, not starting with "paste_your") and each of
    the five steps -- the import of [langchain.agents], the prompt, the
    LLM, the agent and the executor -- goes through. *)
Theorem primary_mode_iff (x : External) (s : Session) :
  fst (__init__ x s) = Return primary_analyst
  <-> usable_key (os_getenv x "OPENAI_API_KEY") = true
      /\ Forall (fun step => snd step = Return tt) (construction_steps x).
Proof.
  rewrite init_run, <- run_steps_all_return.
  destruct (usable_key _); cbv zeta.
  - destruct (snd (run_steps (construction_steps x))) as [e|].
    + destruct (is_ImportError (exn_cls e));
        [|destruct (is_Exception (exn_cls e))]; cbn [fst];
        (split; [discriminate|intros [_ [=]]]).
    + cbn [fst]. split; auto.
  - cbn [fst]. split; [discriminate|]. intros [[=] _].
Qed.

Lemma primary_mode_iff_witness :
  fst (__init__ llm_up_world fresh) = Return primary_analyst.
Proof.
  apply (proj2 (primary_mode_iff llm_up_world fresh)).
  split; [reflexivity|]. repeat constructor.
Defined.

(** X15.  With a usable credential, an [Exception] raised by any of the
    five steps leaves the mock agent, and [__init__] prints one line: the
    "LangChain version incompatible" line when the exception is an
    [ImportError] or a subclass, whichever step raised it, and the "Error
    initializing OpenAI Agent" line with the exception's text otherwise.
    The steps that ran before stay in the trace. *)
Theorem construction_failure_leaves_mock (x : External) (s : Session) (e : exn) :
  usable_key (os_getenv x "OPENAI_API_KEY") = true ->
  snd (run_steps (construction_steps x)) = Some e ->
  is_Exception (exn_cls e) = true ->
  fst (__init__ x s) = Return mock_analyst
  /\ trace (snd (__init__ x s))
     = (trace s ++ fst (run_steps (construction_steps x))
        ++ [ EvPrint
               (if is_ImportError (exn_cls e) then
                  "[SYSTEM] LangChain version incompatible. Switching to MOCK AGENT mode."
                else
                  "[SYSTEM] Error initializing OpenAI Agent: " ++ exn_str e
                  ++ ". Switching to MOCK AGENT mode.") ])%list
  /\ printed (fst (run_steps (construction_steps x))) = [].
Proof.
  intros Hkey Hfail He. rewrite init_run, Hkey. cbv zeta. rewrite Hfail, He.
  destruct (is_ImportError (exn_cls e)); cbn [fst snd trace];
    (split; [reflexivity|]); (split; [reflexivity|]);
    apply construction_events_are_quiet.
Qed.

Lemma construction_failure_leaves_mock_witness :
  fst (__init__ no_langchain_world fresh) = Return mock_analyst
  /\ trace (snd (__init__ no_langchain_world fresh))
     = [ EvImport "langchain.agents";
         EvPrint "[SYSTEM] LangChain version incompatible. Switching to MOCK AGENT mode." ].
Proof.
  destruct (construction_failure_leaves_mock no_langchain_world fresh
              (mk_exn ModuleNotFoundError "No module named 'langchain.agents'"))
    as (Hself & Htrace & _); [reflexivity ..|].
  split; [exact Hself | exact Htrace].
Defined.

End InitExtras.

(** ** agent.py: the router *)

Section RouterExtras.

Import ShopEaseAnalyst.

(** The session the executor is handed in Primary mode. *)
Lemma process_query_primary_run (self : AnalystObject)
    (executor : ExecutorObject) (query : string) (x : External) (s : Session) :
  use_mock self = false ->
  agent_executor self = Some executor ->
  process_query self query x s =
  match executor_invoke x executor {[ "input" := query ]}
          (mk_session
             (trace s
              ++ [ EvPrint (nl ++ "[AGENT] Received Query: '" ++ query ++ "'");
                   EvInvokeExecutor {[ "input" := query ]} ])
             (_TOOLS_INSTANCE s)) with
  | (Return response, s1) =>
      match response !! "output" with
      | Some output => (Return output, s1)
      | None =>
          _mock_process_query self query x
            (mk_session
               (trace s1
                ++ [ EvPrint ("[ERROR] LangChain execution failed: "
                              ++ "'output'" ++ ". Falling back to Mock.") ])
               (_TOOLS_INSTANCE s1))
      end
  | (Raise e, s1) =>
      if is_Exception (exn_cls e) then
        _mock_process_query self query x
          (mk_session
             (trace s1
              ++ [ EvPrint ("[ERROR] LangChain execution failed: "
                            ++ exn_str e ++ ". Falling back to Mock.") ])
             (_TOOLS_INSTANCE s1))
      else (Raise e, s1)
  end.
Proof.
  intros Hmock Hexec.
  unfold process_query. rewrite Hmock.
  unfold bind at 1, print at 1, emit at 1.
  unfold try_except, get_agent_executor. rewrite Hexec.
  unfold bind at 1, lift at 1.
  unfold bind at 1, invoke_executor, bind at 1, emit at 1.
  cbn [trace _TOOLS_INSTANCE]. rewrite <- app_assoc. cbn [app].
  destruct (executor_invoke x executor _ _) as [[response|e] s1].
  - unfold lift, getitem. destruct (response !! "output"); reflexivity.
  - cbn [find_handler]. destruct (is_Exception (exn_cls e)); reflexivity.
Qed.

(** X16.  In Primary mode, when the executor returns a response that has
    an "output" entry, [process_query] returns that entry as it is and
    leaves the session as the executor left it: the planner does not run
    and nothing more is printed. *)
Theorem primary_success_returns_output (self : AnalystObject)
    (executor : ExecutorObject) (query output : string) (x : External)
    (s s1 : Session) (response : gmap string string) :
  use_mock self = false ->
  agent_executor self = Some executor ->
  executor_invoke x executor {[ "input" := query ]}
    (mk_session
       (trace s
        ++ [ EvPrint (nl ++ "[AGENT] Received Query: '" ++ query ++ "'");
             EvInvokeExecutor {[ "input" := query ]} ])
       (_TOOLS_INSTANCE s))
  = (Return response, s1) ->
  response !! "output" = Some output ->
  process_query self query x s = (Return output, s1).
Proof.
  intros Hmock Hexec Hinvoke Hout.
  rewrite (process_query_primary_run _ _ _ _ _ Hmock Hexec), Hinvoke, Hout.
  reflexivity.
Qed.

Lemma primary_success_returns_output_witness :
  fst (process_query primary_analyst "Does delivery time affect churn?"
         llm_up_world fresh)
  = Return "Churned customers wait longer for their orders.".
Proof.
  rewrite (primary_success_returns_output primary_analyst
             (mk_executor all_tools true) "Does delivery time affect churn?"
             "Churned customers wait longer for their orders."
             llm_up_world fresh
             (mk_session
                [ EvPrint (nl ++ "[AGENT] Received Query: 'Does delivery time affect churn?'");
                  EvInvokeExecutor {[ "input" := "Does delivery time affect churn?" ]} ]
                None)
             llm_answer); reflexivity.
Defined.

(** X17.  In Primary mode, when the executor returns a response without an
    "output" entry, reading it raises [KeyError], which the same [except]
    clause catches: [process_query] answers as the rule-based planner does
    on the session the executor left. *)
Theorem primary_answer_without_output_falls_back (self : AnalystObject)
    (executor : ExecutorObject) (query : string) (x : External)
    (s s1 : Session) (response : gmap string string) :
  use_mock self = false ->
  agent_executor self = Some executor ->
  executor_invoke x executor {[ "input" := query ]}
    (mk_session
       (trace s
        ++ [ EvPrint (nl ++ "[AGENT] Received Query: '" ++ query ++ "'");
             EvInvokeExecutor {[ "input" := query ]} ])
       (_TOOLS_INSTANCE s))
  = (Return response, s1) ->
  response !! "output" = None ->
  let t := fst (route (lower query)) in
  fst (process_query self query x s)
  = match fst (run_tool t x (_TOOLS_INSTANCE s1)) with
    | Return result => Return (final_response (plan_label t) result)
    | Raise e => Raise e
    end
  /\ exists line,
       trace (snd (process_query self query x s))
       = (trace s1
          ++ EvPrint line :: planner_events query (context_of query) t)%list.
Proof.
  intros Hmock Hexec Hinvoke Hout t.
  rewrite (process_query_primary_run _ _ _ _ _ Hmock Hexec), Hinvoke, Hout.
  rewrite mock_process_query_run. fold t. cbn [fst snd trace _TOOLS_INSTANCE].
  rewrite route_label. fold t. split; [reflexivity|].
  rewrite <- app_assoc. eexists. reflexivity.
Qed.

Lemma primary_answer_without_output_falls_back_witness :
  fst (process_query primary_analyst "Hello" llm_mute_world fresh)
  = Return (final_response "check context"
              "Summary: 2 Customers, 50.00% Churn Rate, Total Revenue: INR 1,200").
Proof.
  destruct (primary_answer_without_output_falls_back primary_analyst
              (mk_executor all_tools true) "Hello" llm_mute_world fresh
              (mk_session
                 [ EvPrint (nl ++ "[AGENT] Received Query: 'Hello'");
                   EvInvokeExecutor {[ "input" := "Hello" ]} ]
                 None)
              {[ "input" := "Hello" ]}) as [H _];
    [reflexivity .. |].
  rewrite H. vm_compute. reflexivity.
Defined.

(** X18.  In Fallback mode the router never reaches for the executor: a
    query adds exactly six events to the trace -- four printed lines and
    two tool invocations -- and none of them is an executor call, whether
    or not the agent holds an executor. *)
Theorem fallback_mode_never_calls_executor (self : AnalystObject)
    (query : string) (x : External) (s : Session) :
  use_mock self = true ->
  exists evs,
    trace (snd (process_query self query x s)) = (trace s ++ evs)%list
    /\ executor_calls evs = []
    /\ length (printed evs) = 4%nat
    /\ length (invoked evs) = 2%nat
    /\ length evs = 6%nat.
Proof.
  intros Hmock.
  rewrite (process_query_mock_run _ _ _ _ Hmock), mock_process_query_run.
  cbn [snd trace]. rewrite <- app_assoc. eexists. split; [reflexivity|].
  repeat split.
Qed.

Lemma fallback_mode_never_calls_executor_witness :
  exists evs,
    trace (snd (process_query (mk_analyst all_tools true
                                 (Some (mk_executor all_tools true)))
                  "Hello" llm_up_world fresh)) = evs
    /\ executor_calls evs = [].
Proof.
  destruct (fallback_mode_never_calls_executor
              (mk_analyst all_tools true (Some (mk_executor all_tools true)))
              "Hello" llm_up_world fresh) as (evs & Htrace & Hcalls & _);
    [reflexivity|].
  exists evs. split; [exact Htrace | exact Hcalls].
Defined.

End RouterExtras.

(** ** agent.py: the rule-based planner *)

Section PlannerExtras.

Import ShopEaseAnalyst.

(** X19.  The planner does not see letter case: a query and its lowered
    form get the same answer. *)
Theorem planner_ignores_case (self : AnalystObject) (query : string)
    (x : External) (s : Session) :
  fst (_mock_process_query self (lower query) x s)
  = fst (_mock_process_query self query x s).
Proof.
  rewrite !mock_process_query_run, lower_idempotent. reflexivity.
Qed.

(** X20.  The word "delivery", in any letter case and anywhere in the
    query, sends the query to the delivery-impact tool, which is invoked
    exactly once, whatever else the query says. *)
Theorem delivery_anywhere_in_any_case (self : AnalystObject)
    (before word after : string) (x : External) (s : Session) :
  lower word = "delivery" ->
  let query := before ++ word ++ after in
  (exists evs,
      trace (snd (_mock_process_query self query x s)) = (trace s ++ evs)%list
      /\ invoked evs = [ (t_get_business_context, InputStr query);
                         (t_analyze_delivery_impact, InputDict ∅) ])
  /\ fst (_mock_process_query self query x s)
     = match fst (run_tool t_analyze_delivery_impact x (_TOOLS_INSTANCE s)) with
       | Return result =>
           Return (final_response "investigate delivery times" result)
       | Raise e => Raise e
       end.
Proof.
  intros Hword query. rewrite mock_process_query_run.
  assert (Hin : str_in "delivery" (lower query) = true).
  { subst query. rewrite !lower_app, Hword. apply str_in_app. }
  unfold route. rewrite Hin. cbn [fst snd trace].
  split; [eexists; split; reflexivity | reflexivity].
Qed.

Lemma delivery_anywhere_in_any_case_witness :
  fst (_mock_process_query mock_analyst
         ("Which city channel has slow " ++ "DeLiVeRy" ++ "?") mock_world fresh)
  = Return (final_response "investigate delivery times" delivery_text).
Proof.
  destruct (delivery_anywhere_in_any_case mock_analyst
              "Which city channel has slow " "DeLiVeRy" "?" mock_world fresh)
    as [_ H]; [vm_compute; reflexivity|].
  rewrite H. vm_compute. reflexivity.
Defined.



Lemma app_inv_head_str (a b c : string) : a ++ b = a ++ c -> b = c.
Proof.
  induction a as [|ch a IH]; cbn [append]; [auto|].
  intros [= H]. auto.
Qed.

Lemma length_app_str (a b : string) :
  String.length (a ++ b) = (String.length a + String.length b)%nat.
Proof.
  induction a as [|ch a IH]; cbn [append String.length]; [reflexivity|].
  now rewrite IH.
Qed.

Lemma app_inv_tail_str (a b c : string) : a ++ c = b ++ c -> a = b.
Proof.
  revert b. induction a as [|ch a IH]; intros [|ch' b] H.
  - reflexivity.
  - apply (f_equal String.length) in H.
    cbn [append String.length] in H. rewrite length_app_str in H. lia.
  - apply (f_equal String.length) in H.
    cbn [append String.length] in H. rewrite length_app_str in H. lia.
  - cbn [append] in H. injection H as -> H. f_equal. auto.
Qed.

(** X22.  The response keeps what it was made of: two responses of the
    planner are equal only if they carry the same plan label and the same
    tool result. *)
Theorem response_determines_label_and_result (t t' : tool_id)
    (result result' : string) :
  final_response (plan_label t) result = final_response (plan_label t') result' ->
  plan_label t = plan_label t' /\ result = result'.
Proof.
  unfold final_response. intros H.
  do 4 apply app_inv_head_str in H.
  assert (Hlabel : plan_label t = plan_label t').
  { destruct t, t'; try reflexivity; cbn [plan_label append] in H;
      discriminate H. }
  split; [exact Hlabel|]. rewrite Hlabel in H.
  do 6 apply app_inv_head_str in H.
  apply app_inv_tail_str in H. exact H.
Qed.

Lemma response_determines_label_and_result_witness :
  plan_label t_analyze_demographics = plan_label t_get_data_summary
  /\ "Churn by Gender:" = "Churn by Gender:".
Proof.
  apply (response_determines_label_and_result t_analyze_demographics
           t_get_data_summary "Churn by Gender:" "Churn by Gender:").
  reflexivity.
Defined.

(** X23.  The "Retrieved Context" line of the log is cut at fifty
    characters, and every document is longer than that: for every query the
    line shows exactly the first fifty characters of the first document
    retrieved, and none of a second one. *)
Theorem log_shows_fifty_characters_of_first_document (self : AnalystObject)
    (query : string) (x : External) (s : Session) :
  exists first rest,
    BusinessKnowledgeBase.relevant_docs _RAG_INSTANCE query
    = Return (first :: rest)
    /\ String.length (slice_to 50 first) = 50%nat
    /\ In (EvPrint ("[MOCK-AGENT] Retrieved Context: " ++ slice_to 50 first
                    ++ "..."))
          (trace (snd (_mock_process_query self query x s))).
Proof.
  rewrite relevant_docs_run, mock_process_query_run. cbn [snd trace].
  unfold planner_events, context_of.
  destruct (matched_docs (lower query)) as [|d ds] eqn:E.
  - exists background_text, []. split; [reflexivity|].
    split; [vm_compute; reflexivity|].
    apply in_or_app. right. cbn. auto.
  - exists d, ds. split; [reflexivity|].
    assert (Hcut : slice_to 50 (join nl (d :: ds)) = slice_to 50 d
                   /\ String.length (slice_to 50 d) = 50%nat).
    { unfold matched_docs in E.
      destruct (rule_problem (lower query)), (rule_hypotheses (lower query)),
               (rule_constraints (lower query));
        cbn [app] in E; try discriminate E;
        injection E as <- <-; split; vm_compute; reflexivity. }
    destruct Hcut as [Hcut Hlen]. split; [exact Hlen|].
    apply in_or_app. right. rewrite <- Hcut. cbn. auto.
Qed.

End PlannerExtras.

(** ** agent.py: the script *)

Section ScriptExtras.

Import ShopEaseAnalyst.



End ScriptExtras.
